(** * codewatch.domain: value objects and pattern entities

    A shallow embedding of the Python package [codewatch.domain]
    (value objects [ConfidenceScore], [QualifiedName], [PatternLocation];
    entities [KeeperPattern], [HandlerPattern], [PatternRelation]) together
    with the properties its specification states about them.

    Conventions of the embedding:
    - a Python [str] is a list of Unicode code points ([list N]);
    - a Python [int] is a [Z];
    - a Python [float] is an IEEE-754 binary64 value ([spec_float] with
      precision 53 and maximal exponent 1024);
    - a raised exception is the [Raise] result of a computation;
    - a method is a function from the state of [self] to a result and the
      state of [self] afterwards, so that [object.__setattr__] on a frozen
      dataclass is an explicit state update. *)

From Stdlib Require Import ZArith NArith List Bool Lia.
From Stdlib Require Import Strings.String Strings.Ascii Numbers.DecimalString.
From Stdlib Require Import Floats.SpecFloat.
From stdpp Require Import base option list gmap.

Local Open Scope Z_scope.

(* ===================================================================== *)
(** ** Python strings *)
(* ===================================================================== *)

Module pystr.

(** A character is a Unicode code point. *)
Definition char : Type := N.
Definition str : Type := list char.

(** A string literal of the source, as the list of its code points. *)
Definition py (s : string) : str := map N_of_ascii (list_ascii_of_string s).

Definition dot : char := 46%N.
Definition slash : char := 47%N.

(** [str.isspace] on one character: the code points CPython's Unicode
    database classifies as whitespace. *)
Definition isspace (c : char) : bool :=
  ((9 <=? c) && (c <=? 13) || (28 <=? c) && (c <=? 32)
   || (c =? 133) || (c =? 160) || (c =? 5760)
   || (8192 <=? c) && (c <=? 8202)
   || (c =? 8232) || (c =? 8233) || (c =? 8239) || (c =? 8287)
   || (c =? 12288))%N.

(** [s.lstrip()], [s.rstrip()], [s.strip()] without argument. *)
Fixpoint lstrip (s : str) : str :=
  match s with
  | c :: t => if isspace c then lstrip t else s
  | [] => []
  end.

Fixpoint rstrip (s : str) : str :=
  match s with
  | c :: t =>
      match rstrip t with
      | [] => if isspace c then [] else [c]
      | t' => c :: t'
      end
  | [] => []
  end.

Definition strip (s : str) : str := rstrip (lstrip s).

(** [c in s] for a one-character needle. *)
Definition contains_char (c : char) (s : str) : bool :=
  existsb (N.eqb c) s.

(** Highest index at which [c] occurs in [s], if any. *)
Fixpoint rindex (c : char) (s : str) : option nat :=
  match s with
  | x :: t =>
      match rindex c t with
      | Some i => Some (S i)
      | None => if N.eqb x c then Some O else None
      end
  | [] => None
  end.

(** [s.rfind(c)]: the highest index of [c], or [-1]. *)
Definition rfind (s : str) (c : char) : Z :=
  match rindex c s with
  | Some i => Z.of_nat i
  | None => -1
  end.

(** A slice bound, as Python resolves it against a length: negative
    bounds count from the end, and the result is clipped to [0, len]. *)
Definition slice_bound (len : nat) (i : Z) : nat :=
  let n := Z.of_nat len in
  let j := if i <? 0 then i + n else i in
  Z.to_nat (Z.max 0 (Z.min j n)).

(** [s[:i]] and [s[i:]]. *)
Definition slice_to (s : str) (i : Z) : str :=
  firstn (slice_bound (length s) i) s.
Definition slice_from (s : str) (i : Z) : str :=
  skipn (slice_bound (length s) i) s.

(** [s.startswith(p)] and [needle in hay]. *)
Fixpoint startswith (s p : str) {struct p} : bool :=
  match p, s with
  | [], _ => true
  | _ :: _, [] => false
  | b :: p', a :: s' => N.eqb a b && startswith s' p'
  end.

Fixpoint contains (hay needle : str) : bool :=
  startswith hay needle
  || match hay with
     | [] => false
     | _ :: t => contains t needle
     end.

(** [str(n)] for an [int]. *)
Definition str_of_int (n : Z) : str :=
  py (NilZero.string_of_int (Z.to_int n)).

(** CPython 3.11 and later convert an integer to a string only when it
    has at most [sys.int_info.default_max_str_digits] = 4300 decimal
    digits, and raise a [ValueError] beyond that (unless the limit is
    changed with [sys.set_int_max_str_digits]).  [str_of_int n] is
    [str(n)] for the integers within the limit, which [formattable]
    recognises; what is stated about formatted integers is stated for
    these. *)
Definition int_max_str_digits : Z := 4300.
Definition formattable (n : Z) : bool :=
  Z.abs n <? 10 ^ int_max_str_digits.

(** [s.split(sep)] for a one-character separator. *)
Fixpoint split (sep : char) (s : str) : list str :=
  match s with
  | [] => [[]]
  | c :: t =>
      if N.eqb c sep then [] :: split sep t
      else match split sep t with
           | w :: ws => (c :: w) :: ws
           | [] => [[c]]
           end
  end.

(** [sep.join(l)]. *)
Fixpoint join (sep : str) (l : list str) : str :=
  match l with
  | [] => []
  | [w] => w
  | w :: ws => w ++ sep ++ join sep ws
  end.

End pystr.
Import pystr.

(* ===================================================================== *)
(** ** Exceptions and methods *)
(* ===================================================================== *)

(** The exception classes of [codewatch.domain.exceptions] that the
    modelled code raises, each carrying its message, and the built-in
    [TypeError]. *)
Inductive exn : Type :=
  | InvalidLocationError (msg : str)
  | InvalidConfidenceScoreError (msg : str)
  | InvalidQualifiedNameError (msg : str)
  | ExtractionError (msg : str)
  | StorageError (msg : str)
  | ConfigurationError (msg : str)
  | TypeError (msg : str).

Definition message (e : exn) : str :=
  match e with
  | InvalidLocationError m | InvalidConfidenceScoreError m
  | InvalidQualifiedNameError m | ExtractionError m
  | StorageError m | ConfigurationError m | TypeError m => m
  end.

(** The result of a call: a value, or a raised exception. *)
Inductive result (A : Type) : Type :=
  | Ok (a : A)
  | Raise (e : exn).
Arguments Ok {A} a.
Arguments Raise {A} e.

(** A method of a class whose instances have state [S]. *)
Definition method (S A : Type) : Type := S -> result (A * S).

Module meth.
Definition ret {S A} (a : A) : method S A := fun s => Ok (a, s).
Definition bind {S A B} (m : method S A) (k : A -> method S B) : method S B :=
  fun s => match m s with
           | Ok (a, s') => k a s'
           | Raise e => Raise e
           end.
Definition raise {S A} (e : exn) : method S A := fun _ => Raise e.
(** Reading [self]. *)
Definition self {S} : method S S := fun s => Ok (s, s).
(** [object.__setattr__(self, field, v)], given the field's setter. *)
Definition setattr {S V} (set : V -> S -> S) (v : V) : method S unit :=
  fun s => Ok (tt, set v s).
(** [if b: body], with no [else]. *)
Definition when {S} (b : bool) (body : method S unit) : method S unit :=
  if b then body else ret tt.
(** Instance creation: run [__post_init__] on the freshly filled fields. *)
Definition construct {S} (post_init : method S unit) (fields : S) : result S :=
  match post_init fields with
  | Ok (_, s) => Ok s
  | Raise e => Raise e
  end.
End meth.

(** Methods compose with the usual notation [x ← m; k] and [m;; k]. *)
#[global] Instance method_ret {S} : MRet (method S) := @meth.ret S.
#[global] Instance method_bind {S} : MBind (method S) :=
  fun A B k m => meth.bind m k.

(* ===================================================================== *)
(** ** [value_objects/qualified_name.py] *)
(* ===================================================================== *)

Module QualifiedName.

Record t : Type := mk { package : str; name : str }.

Definition set_package (v : str) (q : t) : t := mk v (name q).
Definition set_name (v : str) (q : t) : t := mk (package q) v.

Definition __post_init__ : method t unit :=
  self ← meth.self;
  let normalized_package := strip (package self) in
  let normalized_name := strip (name self) in
  meth.when (bool_decide (normalized_package <> package self))
    (meth.setattr set_package normalized_package);;
  meth.when (bool_decide (normalized_name <> name self))
    (meth.setattr set_name normalized_name);;
  self ← meth.self;
  meth.when (bool_decide (package self = []))
    (meth.raise (InvalidQualifiedNameError (py "Package cannot be empty")));;
  meth.when (bool_decide (name self = []))
    (meth.raise (InvalidQualifiedNameError (py "Name cannot be empty"))).

(** [QualifiedName(package=p, name=n)]. *)
Definition new (p n : str) : result t :=
  meth.construct __post_init__ (mk p n).

(** [QualifiedName.parse(qualified_name)]. *)
Definition parse (qualified_name : str) : result t :=
  let qualified_name := strip qualified_name in
  if bool_decide (qualified_name = []) then
    Raise (InvalidQualifiedNameError (py "Qualified name cannot be empty"))
  else if negb (contains_char dot qualified_name) then
    Raise (InvalidQualifiedNameError
             (py "Qualified name must contain at least one '.' separator, got '"
                ++ qualified_name ++ py "'"))
  else
    let last_dot_index := rfind qualified_name dot in
    let package := slice_to qualified_name last_dot_index in
    let name := slice_from qualified_name (last_dot_index + 1) in
    new package name.

Definition __str__ (self : t) : str :=
  package self ++ py "." ++ name self.

End QualifiedName.

(* ===================================================================== *)
(** ** [pathlib.Path] *)
(* ===================================================================== *)

(** The part of the standard library's [pathlib] that [PatternLocation]
    uses, for POSIX paths: a path is its root and the components after it. *)
Module Path.

Record t : Type := mk { root : str; tail : list str }.

(** [posixpath.splitroot], without the drive (always empty on POSIX). *)
Definition splitroot (p : str) : str * str :=
  if bool_decide (slice_to p 1 <> [slash]) then ([], p)
  else if bool_decide (slice_to (slice_from p 1) 1 <> [slash])
          || bool_decide (slice_to (slice_from p 2) 1 = [slash])
       then ([slash], slice_from p 1)
       else (slice_to p 2, slice_from p 2).

(** [Path(s)]: empty and ["."] components are dropped. *)
Definition of_str (path : str) : t :=
  if bool_decide (path = []) then mk [] []
  else
    let '(root, rel) := splitroot path in
    mk root (filter (fun x => x <> [] /\ x <> [dot]) (split slash rel)).

(** [p.parts]. *)
Definition parts (p : t) : list str :=
  if bool_decide (root p <> []) then root p :: tail p else tail p.

(** [str(p)]. *)
Definition __str__ (p : t) : str :=
  match root p ++ join [slash] (tail p) with
  | [] => [dot]
  | s => s
  end.

End Path.

(* ===================================================================== *)
(** ** [value_objects/location.py] *)
(* ===================================================================== *)

Module PatternLocation.

(** The [file_path] argument is a [Path] or a [str]. *)
Inductive path_or_str : Type :=
  | APath (p : Path.t)
  | AStr (s : str).

(** [Path(x)] for either kind of argument. *)
Definition as_path (x : path_or_str) : Path.t :=
  match x with
  | APath p => p
  | AStr s => Path.of_str s
  end.

(** [f"{x}"]. *)
Definition format_path (x : path_or_str) : str :=
  match x with
  | APath p => Path.__str__ p
  | AStr s => s
  end.

Record t : Type := mk {
  file_path : path_or_str;
  line_start : Z;
  line_end : Z;
  column_start : Z;
  column_end : Z
}.

Definition set_file_path (v : path_or_str) (l : t) : t :=
  mk v (line_start l) (line_end l) (column_start l) (column_end l).

Definition __post_init__ : method t unit :=
  self ← meth.self;
  match file_path self with
  | AStr s => meth.setattr set_file_path (APath (Path.of_str s))
  | APath _ => mret tt
  end;;
  self ← meth.self;
  meth.when (line_start self <? 1)
    (meth.raise (InvalidLocationError
       (py "Line start must be positive, got " ++ str_of_int (line_start self))));;
  meth.when (line_end self <? 1)
    (meth.raise (InvalidLocationError
       (py "Line end must be positive, got " ++ str_of_int (line_end self))));;
  meth.when (line_end self <? line_start self)
    (meth.raise (InvalidLocationError
       (py "Line end (" ++ str_of_int (line_end self)
          ++ py ") must be >= line start (" ++ str_of_int (line_start self)
          ++ py ")")));;
  meth.when (column_start self <? 0)
    (meth.raise (InvalidLocationError
       (py "Column start must be non-negative, got "
          ++ str_of_int (column_start self))));;
  meth.when (column_end self <? 0)
    (meth.raise (InvalidLocationError
       (py "Column end must be non-negative, got "
          ++ str_of_int (column_end self))));;
  meth.when ((line_start self =? line_end self)
             && (column_end self <? column_start self))
    (meth.raise (InvalidLocationError
       (py "Column end (" ++ str_of_int (column_end self)
          ++ py ") must be >= column start (" ++ str_of_int (column_start self)
          ++ py ") on single line")));;
  (* [self.file_path] is a [Path] here, and [as_path] leaves it as it is *)
  meth.when (bool_decide (Path.parts (as_path (file_path self)) = []))
    (meth.raise (InvalidLocationError (py "File path cannot be empty"))).

(** [PatternLocation(file_path, line_start, line_end, column_start,
    column_end)]. *)
Definition new (file_path : path_or_str)
    (line_start line_end column_start column_end : Z) : result t :=
  meth.construct __post_init__
    (mk file_path line_start line_end column_start column_end).

Definition at_line (file_path : path_or_str) (line_number : Z) : result t :=
  new file_path line_number line_number 0 0.

Definition single_point (file_path : path_or_str) (line column : Z) : result t :=
  new file_path line line column column.

Definition __str__ (self : t) : str :=
  if line_start self =? line_end self then
    format_path (file_path self) ++ py ":" ++ str_of_int (line_start self)
      ++ py ":" ++ str_of_int (column_start self)
      ++ py "-" ++ str_of_int (column_end self)
  else
    format_path (file_path self) ++ py ":" ++ str_of_int (line_start self)
      ++ py ":" ++ str_of_int (column_start self)
      ++ py "-" ++ str_of_int (line_end self)
      ++ py ":" ++ str_of_int (column_end self).

End PatternLocation.

(** The invariants of a location in the order in which the specification
    lists their checks, used to state that the constructor reports the
    first one that is violated. *)
Module LocationSpec.
Import PatternLocation.

Inductive check : Type :=
  | LineStartPositive
  | LineEndPositive
  | LineEndNotBeforeStart
  | ColumnStartNonNegative
  | ColumnEndNonNegative
  | SameLineColumnOrder
  | PathNonEmpty.

Definition check_order : list check :=
  [LineStartPositive; LineEndPositive; LineEndNotBeforeStart;
   ColumnStartNonNegative; ColumnEndNonNegative; SameLineColumnOrder;
   PathNonEmpty].

(** Whether the fields violate the invariant that a check guards. *)
Definition violated (l : t) (k : check) : bool :=
  match k with
  | LineStartPositive => negb (1 <=? line_start l)
  | LineEndPositive => negb (1 <=? line_end l)
  | LineEndNotBeforeStart => negb (line_start l <=? line_end l)
  | ColumnStartNonNegative => negb (0 <=? column_start l)
  | ColumnEndNonNegative => negb (0 <=? column_end l)
  | SameLineColumnOrder =>
      (line_start l =? line_end l) && negb (column_start l <=? column_end l)
  | PathNonEmpty => bool_decide (Path.parts (as_path (file_path l)) = [])
  end.

(** The error that reports a violated check. *)
Definition error_of (l : t) (k : check) : exn :=
  InvalidLocationError
    match k with
    | LineStartPositive =>
        py "Line start must be positive, got " ++ str_of_int (line_start l)
    | LineEndPositive =>
        py "Line end must be positive, got " ++ str_of_int (line_end l)
    | LineEndNotBeforeStart =>
        py "Line end (" ++ str_of_int (line_end l)
          ++ py ") must be >= line start (" ++ str_of_int (line_start l)
          ++ py ")"
    | ColumnStartNonNegative =>
        py "Column start must be non-negative, got "
          ++ str_of_int (column_start l)
    | ColumnEndNonNegative =>
        py "Column end must be non-negative, got "
          ++ str_of_int (column_end l)
    | SameLineColumnOrder =>
        py "Column end (" ++ str_of_int (column_end l)
          ++ py ") must be >= column start (" ++ str_of_int (column_start l)
          ++ py ") on single line"
    | PathNonEmpty => py "File path cannot be empty"
    end.

(** The fields after the path normalization that opens
    [__post_init__]: those supplied, with the path as a [Path]. *)
Definition normalized (fp : path_or_str) (ls le cs ce : Z) : t :=
  mk (APath (as_path fp)) ls le cs ce.

(** The first check of the order whose invariant the fields violate. *)
Definition first_violated (l : t) : option check :=
  find (violated l) check_order.

(** All the checks whose invariant the fields violate. *)
Definition all_violated (l : t) : list check :=
  filter (fun k => violated l k = true) check_order.

End LocationSpec.

(* ===================================================================== *)
(** ** Python floats *)
(* ===================================================================== *)

Module pyfloat.

(** A [float] is an IEEE-754 binary64 value. *)
Definition float : Type := spec_float.
Definition prec : Z := 53.
Definition emax : Z := 1024.

(** [float(n)] for an integer [n]. *)
Definition of_int (n : Z) : float := binary_normalize prec emax n 0 false.

(** The decimal literal whose exact value is [num / den], both below
    [2^53]: the binary64 value nearest to the quotient. *)
Definition literal (num den : Z) : float :=
  SFdiv prec emax (of_int num) (of_int den).

Definition zero : float := S754_zero false.   (* 0.0 *)
Definition one : float := of_int 1.           (* 1.0 *)

Definition neg (x : float) : float := SFopp x.
Definition add (x y : float) : float := SFadd prec emax x y.
Definition mul (x y : float) : float := SFmul prec emax x y.

Definition lt (x y : float) : bool := SFltb x y.      (* x < y *)
Definition le (x y : float) : bool := SFleb x y.      (* x <= y *)
Definition ne (x y : float) : bool := negb (SFeqb x y). (* x != y *)

Definition is_nan (x : float) : bool :=
  match x with S754_nan => true | _ => false end.

End pyfloat.

(* ===================================================================== *)
(** ** [value_objects/confidence.py] *)
(* ===================================================================== *)

Module ConfidenceScore.
Import pyfloat.

Record t : Type := mk { value : float }.

Definition set_value (v : float) (_ : t) : t := mk v.

(** Normalization tolerance for floating-point errors: [0.00001]. *)
Definition EPSILON : float := literal 1 100000.

Section with_format.
(** [f"{x}"] for a float (its shortest round-tripping decimal form),
    a built-in that only appears in the error message. *)
Variable format_float : float -> str.

Definition __post_init__ : method t unit :=
  self ← meth.self;
  let normalized_value :=
    if le (neg EPSILON) (value self) && lt (value self) zero then zero
    else if lt one (value self) && le (value self) (add one EPSILON) then one
    else value self in
  meth.when (ne normalized_value (value self))
    (meth.setattr set_value normalized_value);;
  self ← meth.self;
  meth.when (negb (le zero (value self) && le (value self) one))
    (meth.raise (InvalidConfidenceScoreError
       (py "Confidence score must be between 0.0 and 1.0, got "
          ++ format_float (value self)))).

(** [ConfidenceScore(value)]. *)
Definition new (value : float) : result t :=
  meth.construct __post_init__ (mk value).

Definition high : result t := new (literal 9 10).
Definition medium : result t := new (literal 5 10).
Definition low : result t := new (literal 3 10).

End with_format.

Definition __float__ (self : t) : float := value self.

End ConfidenceScore.

(* ===================================================================== *)
(** ** [enums.py] *)
(* ===================================================================== *)

Inductive Framework : Type := COSMOS_SDK | ETHEREUM | POLKADOT.
Inductive PatternType : Type := KEEPER | MESSAGE_HANDLER | QUERY_HANDLER | VALIDATOR.
Inductive RelationType : Type := CALLS | DEPENDS_ON | IMPLEMENTS | INHERITS_FROM.

(** The members are strings ([class Framework(str, Enum)]): their values. *)
Definition Framework_value (f : Framework) : str :=
  match f with
  | COSMOS_SDK => py "cosmos_sdk"
  | ETHEREUM => py "ethereum"
  | POLKADOT => py "polkadot"
  end.

Definition PatternType_value (p : PatternType) : str :=
  match p with
  | KEEPER => py "keeper"
  | MESSAGE_HANDLER => py "message_handler"
  | QUERY_HANDLER => py "query_handler"
  | VALIDATOR => py "validator"
  end.

Definition RelationType_value (r : RelationType) : str :=
  match r with
  | CALLS => py "calls"
  | DEPENDS_ON => py "depends_on"
  | IMPLEMENTS => py "implements"
  | INHERITS_FROM => py "inherits_from"
  end.

(* ===================================================================== *)
(** ** [entities/keeper.py], [entities/handler.py], [entities/pattern.py] *)
(* ===================================================================== *)

Module KeeperPattern.

Record t : Type := mk {
  location : PatternLocation.t;
  confidence : ConfidenceScore.t;
  pattern_type : PatternType;
  framework : Framework;
  keeper_name : QualifiedName.t;
  store_keys : list str;
  dependencies : list QualifiedName.t
}.

Definition validate : method t unit :=
  self ← meth.self;
  meth.when (bool_decide (store_keys self = []))
    (meth.raise (ExtractionError
       (py "Keeper '" ++ QualifiedName.__str__ (keeper_name self)
          ++ py "' must have at least one store key"))).

End KeeperPattern.

Module HandlerPattern.

(** [Literal['message', 'query']]. *)
Inductive handler_kind : Type := message_kind | query_kind.

Definition handler_kind_value (k : handler_kind) : str :=
  match k with
  | message_kind => py "message"
  | query_kind => py "query"
  end.

Record t : Type := mk {
  location : PatternLocation.t;
  confidence : ConfidenceScore.t;
  pattern_type : PatternType;
  framework : Framework;
  handler_name : QualifiedName.t;
  handler_type : handler_kind;
  message_type : QualifiedName.t;
  keeper_dependencies : list QualifiedName.t
}.

Definition validate : method t unit := mret tt.

End HandlerPattern.

(** The abstract base [Pattern] and its concrete subclasses. *)
Inductive Pattern : Type :=
  | Keeper (k : KeeperPattern.t)
  | Handler (h : HandlerPattern.t).

(** An object reference: the identity of the instance ([id(x)]) together
    with the value it holds.  [x is y] compares identities, [x == y] on
    dataclasses compares values. *)
Record instance (A : Type) : Type := mk_instance { oid : N; val : A }.
Arguments mk_instance {A} oid val.
Arguments oid {A} i.
Arguments val {A} i.

Definition is_ {A} (x y : instance A) : bool := bool_decide (oid x = oid y).

(** JSON-serializable values, the intended contents of [metadata]. *)
#[local] Unset Elimination Schemes.
Inductive json : Type :=
  | JNone
  | JBool (b : bool)
  | JInt (n : Z)
  | JFloat (x : pyfloat.float)
  | JStr (s : str)
  | JList (l : list json)
  | JDict (d : list (str * json)).
#[local] Set Elimination Schemes.

Module PatternRelation.

Record t : Type := mk {
  source : instance Pattern;
  target : instance Pattern;
  relation_type : RelationType;
  metadata : gmap str json
}.

Definition __post_init__ : method t unit :=
  self ← meth.self;
  meth.when (is_ (source self) (target self))
    (meth.raise (ExtractionError
       (py "Pattern relation source and target cannot be the same pattern"))).

(** [PatternRelation(source=..., target=..., relation_type=...,
    metadata=...)]. *)
Definition new (source target : instance Pattern)
    (relation_type : RelationType) (metadata : gmap str json) : result t :=
  meth.construct __post_init__ (mk source target relation_type metadata).

End PatternRelation.

(* ===================================================================== *)
(** ** Hashing *)
(* ===================================================================== *)

#[global] Instance result_ret : MRet result := @Ok.
#[global] Instance result_bind : MBind result :=
  fun A B k m => match m with Ok a => k a | Raise e => Raise e end.

(** [hash(x)].  A frozen dataclass with [eq=True] gets a generated
    [__hash__] that hashes the tuple of its fields; hashing a tuple hashes
    its items from left to right and combines the results.  The hashes of
    the built-in types are parameters. *)
Module pyhash.
Section with_builtins.
Variable hash_str : str -> Z.
Variable hash_int : Z -> Z.
Variable hash_float : pyfloat.float -> Z.
Variable hash_path : Path.t -> Z.
(** The combination step of [tuple.__hash__], from the items' hashes. *)
Variable combine : list Z -> Z.

(** [hash(t)] for a tuple whose items hash as [items]. *)
Fixpoint hash_tuple_from (items : list (result Z)) (acc : list Z) : result Z :=
  match items with
  | [] => Ok (combine (rev acc))
  | h :: rest => x ← h; hash_tuple_from rest (x :: acc)
  end.
Definition hash_tuple (items : list (result Z)) : result Z :=
  hash_tuple_from items [].

(** A [dict] is unhashable. *)
Definition hash_dict (d : gmap str json) : result Z :=
  Raise (TypeError (py "unhashable type: 'dict'")).

Definition hash_path_or_str (x : PatternLocation.path_or_str) : result Z :=
  match x with
  | PatternLocation.APath p => Ok (hash_path p)
  | PatternLocation.AStr s => Ok (hash_str s)
  end.

Definition hash_PatternLocation (l : PatternLocation.t) : result Z :=
  hash_tuple [hash_path_or_str (PatternLocation.file_path l);
              Ok (hash_int (PatternLocation.line_start l));
              Ok (hash_int (PatternLocation.line_end l));
              Ok (hash_int (PatternLocation.column_start l));
              Ok (hash_int (PatternLocation.column_end l))].

Definition hash_ConfidenceScore (c : ConfidenceScore.t) : result Z :=
  hash_tuple [Ok (hash_float (ConfidenceScore.value c))].

Definition hash_QualifiedName (q : QualifiedName.t) : result Z :=
  hash_tuple [Ok (hash_str (QualifiedName.package q));
              Ok (hash_str (QualifiedName.name q))].

Definition hash_KeeperPattern (k : KeeperPattern.t) : result Z :=
  hash_tuple
    [hash_PatternLocation (KeeperPattern.location k);
     hash_ConfidenceScore (KeeperPattern.confidence k);
     Ok (hash_str (PatternType_value (KeeperPattern.pattern_type k)));
     Ok (hash_str (Framework_value (KeeperPattern.framework k)));
     hash_QualifiedName (KeeperPattern.keeper_name k);
     hash_tuple (map (fun s => Ok (hash_str s)) (KeeperPattern.store_keys k));
     hash_tuple (map hash_QualifiedName (KeeperPattern.dependencies k))].

Definition hash_HandlerPattern (h : HandlerPattern.t) : result Z :=
  hash_tuple
    [hash_PatternLocation (HandlerPattern.location h);
     hash_ConfidenceScore (HandlerPattern.confidence h);
     Ok (hash_str (PatternType_value (HandlerPattern.pattern_type h)));
     Ok (hash_str (Framework_value (HandlerPattern.framework h)));
     hash_QualifiedName (HandlerPattern.handler_name h);
     Ok (hash_str (HandlerPattern.handler_kind_value
                     (HandlerPattern.handler_type h)));
     hash_QualifiedName (HandlerPattern.message_type h);
     hash_tuple (map hash_QualifiedName (HandlerPattern.keeper_dependencies h))].

Definition hash_Pattern (p : Pattern) : result Z :=
  match p with
  | Keeper k => hash_KeeperPattern k
  | Handler h => hash_HandlerPattern h
  end.

(** The generated [PatternRelation.__hash__]:
    [hash((self.source, self.target, self.relation_type, self.metadata))]. *)
Definition hash_PatternRelation (r : PatternRelation.t) : result Z :=
  hash_tuple
    [hash_Pattern (val (PatternRelation.source r));
     hash_Pattern (val (PatternRelation.target r));
     Ok (hash_str (RelationType_value (PatternRelation.relation_type r)));
     hash_dict (PatternRelation.metadata r)].

End with_builtins.
End pyhash.


(* ===================================================================== *)
(** ** [exceptions.py]: the class hierarchy *)
(* ===================================================================== *)

Module exceptions.

(** The exception classes of the module and the built-in ones they
    derive from or that the modelled code raises. *)
Inductive class : Type :=
  | BaseException
  | Exception
  | ValueError
  | TypeError
  | CodewatchError
  | ValueObjectError
  | InvalidLocationError
  | InvalidConfidenceScoreError
  | InvalidQualifiedNameError
  | ExtractionError
  | StorageError
  | ConfigurationError.

#[global] Instance class_eq_dec : EqDecision class.
Proof. solve_decision. Defined.

Definition classes : list class :=
  [BaseException; Exception; ValueError; TypeError; CodewatchError;
   ValueObjectError; InvalidLocationError; InvalidConfidenceScoreError;
   InvalidQualifiedNameError; ExtractionError; StorageError;
   ConfigurationError].

(** The classes that [exceptions.py] defines. *)
Definition defined_here (c : class) : bool :=
  match c with
  | BaseException | Exception | ValueError | TypeError => false
  | _ => true
  end.

(** [c.__bases__], as the [class] statements give them. *)
Definition bases (c : class) : list class :=
  match c with
  | BaseException => []
  | Exception => [BaseException]
  | ValueError => [Exception]
  | TypeError => [Exception]
  | CodewatchError => [Exception]
  | ValueObjectError => [CodewatchError; ValueError]
  | InvalidLocationError => [ValueObjectError]
  | InvalidConfidenceScoreError => [ValueObjectError]
  | InvalidQualifiedNameError => [ValueObjectError]
  | ExtractionError => [CodewatchError]
  | StorageError => [CodewatchError]
  | ConfigurationError => [CodewatchError]
  end.

(** [d] is reached from [c] through at most [depth] base-class steps. *)
Fixpoint derives (depth : nat) (c d : class) : bool :=
  bool_decide (c = d)
  || match depth with
     | O => false
     | S n => existsb (fun b => derives n b d) (bases c)
     end.

(** [issubclass(c, d)]; no class is more than four steps from its
    farthest ancestor. *)
Definition issubclass (c d : class) : bool := derives 4 c d.

End exceptions.

(** [type(e)] for a raised exception. *)
Definition class_of (e : exn) : exceptions.class :=
  match e with
  | InvalidLocationError _ => exceptions.InvalidLocationError
  | InvalidConfidenceScoreError _ => exceptions.InvalidConfidenceScoreError
  | InvalidQualifiedNameError _ => exceptions.InvalidQualifiedNameError
  | ExtractionError _ => exceptions.ExtractionError
  | StorageError _ => exceptions.StorageError
  | ConfigurationError _ => exceptions.ConfigurationError
  | TypeError _ => exceptions.TypeError
  end.

(** [isinstance(e, c)], which is also whether [except c] catches [e]. *)
Definition isinstance (e : exn) (c : exceptions.class) : bool :=
  exceptions.issubclass (class_of e) c.

(* ===================================================================== *)
(** ** [enums.py]: members and string forms *)
(* ===================================================================== *)

(** [list(Framework)] and the like: the members in definition order. *)
Definition Framework_members : list Framework :=
  [COSMOS_SDK; ETHEREUM; POLKADOT].
Definition PatternType_members : list PatternType :=
  [KEEPER; MESSAGE_HANDLER; QUERY_HANDLER; VALIDATOR].
Definition RelationType_members : list RelationType :=
  [CALLS; DEPENDS_ON; IMPLEMENTS; INHERITS_FROM].

(** [str(member)]: each enumeration overrides [__str__] to return the
    member's value. *)
Definition Framework_str (f : Framework) : str := Framework_value f.
Definition PatternType_str (p : PatternType) : str := PatternType_value p.
Definition RelationType_str (r : RelationType) : str := RelationType_value r.

(* ===================================================================== *)
(** ** [Pattern.validate]: dispatch on the concrete class *)
(* ===================================================================== *)

(** [p.validate()] for a [Pattern] reference: the method of the object's
    class runs on the object. *)
Definition Pattern_validate : method Pattern unit :=
  fun p =>
    match p with
    | Keeper k =>
        match KeeperPattern.validate k with
        | Ok (u, k') => Ok (u, Keeper k')
        | Raise e => Raise e
        end
    | Handler h =>
        match HandlerPattern.validate h with
        | Ok (u, h') => Ok (u, Handler h')
        | Raise e => Raise e
        end
    end.

(* ===================================================================== *)
(** * Properties *)
(* ===================================================================== *)

(** ** Strings *)

Section string_facts.
Implicit Types (s p n : str) (c : char).

Lemma lstrip_length s : (length (lstrip s) <= length s)%nat.
Proof.
  induction s as [|c t IH]; simpl; [lia|]. destruct (isspace c); simpl; lia.
Qed.

Lemma rstrip_length s : (length (rstrip s) <= length s)%nat.
Proof.
  induction s as [|c t IH]; simpl; [lia|].
  destruct (rstrip t); [destruct (isspace c)|]; simpl in *; lia.
Qed.

Lemma lstrip_id_iff s :
  lstrip s = s
  <-> hd_error s = None \/ exists c, hd_error s = Some c /\ isspace c = false.
Proof.
  destruct s as [|c t]; simpl; [tauto|].
  destruct (isspace c) eqn:E.
  - split.
    + intros H. pose proof (lstrip_length t) as L. rewrite H in L. simpl in L. lia.
    + intros [H|(c' & H & H')]; [discriminate|]. congruence.
  - split; [|reflexivity]. intros _. right. eauto.
Qed.

Lemma lstrip_app_nonempty p s : p <> [] -> lstrip p = p -> lstrip (p ++ s) = p ++ s.
Proof.
  destruct p as [|c t]; [congruence|]. intros _ H.
  apply lstrip_id_iff in H as [H|(c' & H & H')]; [discriminate|].
  simpl in H. injection H as ->. simpl. now rewrite H'.
Qed.

Lemma rstrip_app p s : rstrip s <> [] -> rstrip (p ++ s) = p ++ rstrip s.
Proof.
  intros H. induction p as [|c t IH]; simpl; [reflexivity|].
  rewrite IH. destruct (t ++ rstrip s) eqn:E; [|reflexivity].
  destruct t; simpl in E; [congruence | discriminate].
Qed.

Lemma rstrip_snoc_nospace s c : isspace c = false -> rstrip (s ++ [c]) = s ++ [c].
Proof.
  intros H. rewrite rstrip_app; simpl; rewrite H; [reflexivity | discriminate].
Qed.

(** A string that [strip] leaves unchanged is unchanged by each side. *)
Lemma strip_id_sides s : strip s = s -> lstrip s = s /\ rstrip s = s.
Proof.
  unfold strip. intros H.
  assert (L : lstrip s = s).
  { destruct s as [|c t]; [reflexivity|]. simpl in *.
    destruct (isspace c); [|reflexivity].
    pose proof (rstrip_length (lstrip t)). pose proof (lstrip_length t).
    rewrite H in *. simpl in *. lia. }
  split; [exact L|]. now rewrite L in H.
Qed.

Lemma contains_char_app c p s :
  contains_char c (p ++ s) = contains_char c p || contains_char c s.
Proof. apply existsb_app. Qed.

Lemma rindex_None c s : contains_char c s = false -> rindex c s = None.
Proof.
  induction s as [|x t IH]; simpl; [reflexivity|].
  intros H. apply orb_false_iff in H as [H1 H2].
  rewrite (IH H2). rewrite N.eqb_sym, H1. reflexivity.
Qed.

Lemma rindex_app_Some c p s i :
  rindex c s = Some i -> rindex c (p ++ s) = Some (length p + i)%nat.
Proof. intros H. induction p as [|x t IH]; simpl; [exact H|]. now rewrite IH. Qed.

(** The last occurrence: a [c] followed by a [c]-free rest. *)
Lemma rfind_last c p n :
  contains_char c n = false -> rfind (p ++ c :: n) c = Z.of_nat (length p).
Proof.
  intros H. unfold rfind. rewrite (rindex_app_Some c p (c :: n) 0).
  - f_equal. lia.
  - simpl. rewrite (rindex_None _ _ H), N.eqb_refl. reflexivity.
Qed.

Lemma slice_bound_in_range len k :
  (k <= len)%nat -> slice_bound len (Z.of_nat k) = k.
Proof.
  intros H. unfold slice_bound.
  destruct (Z.ltb_spec (Z.of_nat k) 0); lia.
Qed.

Lemma slice_to_app p s : slice_to (p ++ s) (Z.of_nat (length p)) = p.
Proof.
  unfold slice_to. rewrite slice_bound_in_range.
  - now rewrite firstn_app, Nat.sub_diag, firstn_all, firstn_O, app_nil_r.
  - rewrite length_app. lia.
Qed.

Lemma slice_from_app_cons p c n :
  slice_from (p ++ c :: n) (Z.of_nat (length p) + 1) = n.
Proof.
  unfold slice_from.
  replace (Z.of_nat (length p) + 1) with (Z.of_nat (S (length p))) by lia.
  rewrite slice_bound_in_range by (rewrite length_app; simpl; lia).
  replace (p ++ c :: n) with ((p ++ [c]) ++ n) by now rewrite <- app_assoc.
  replace (S (length p)) with (length (p ++ [c])) by (rewrite length_app; simpl; lia).
  apply drop_app_length.
Qed.

Lemma startswith_app n s : startswith (n ++ s) n = true.
Proof. induction n as [|c t IH]; simpl; [reflexivity|]. now rewrite N.eqb_refl. Qed.

Lemma contains_startswith s n : startswith s n = true -> contains s n = true.
Proof. intros H. destruct s; simpl; rewrite H; reflexivity. Qed.

(** [needle in hay] holds when [hay] is built around [needle]. *)
Lemma contains_app a n b : contains (a ++ n ++ b) n = true.
Proof.
  induction a as [|c t IH].
  - simpl. apply contains_startswith, startswith_app.
  - simpl. rewrite IH. apply orb_true_r.
Qed.

End string_facts.


(** ** [QualifiedName] *)

(** Unfolding of the method combinators, for symbolic execution. *)
Ltac run_method :=
  unfold meth.construct, mbind, method_bind, meth.bind, meth.self, meth.when,
    meth.setattr, meth.raise, mret, method_ret, meth.ret; cbn beta iota.

Section qualified_name_facts.
Import QualifiedName.
Implicit Types (s p n pre post : str).

Lemma new_trims p n :
  new p n =
    if bool_decide (strip p = []) then
      Raise (InvalidQualifiedNameError (py "Package cannot be empty"))
    else if bool_decide (strip n = []) then
      Raise (InvalidQualifiedNameError (py "Name cannot be empty"))
    else Ok (mk (strip p) (strip n)).
Proof.
  unfold new, __post_init__. run_method.
  cbn [package name].
  destruct (bool_decide (strip p <> p)) eqn:Ep;
    destruct (bool_decide (strip n <> n)) eqn:En;
    cbn [package name set_package set_name];
    try (apply bool_decide_eq_false in Ep; apply dec_stable in Ep);
    try (apply bool_decide_eq_false in En; apply dec_stable in En);
    rewrite ?Ep, ?En;
    repeat match goal with
      | |- context [bool_decide ?P] => destruct (bool_decide P)
      end; reflexivity.
Qed.

Lemma parse_at_last_dot s pre post :
  strip s = pre ++ dot :: post ->
  contains_char dot post = false ->
  parse s = new pre post.
Proof.
  intros Hs Hpost. unfold parse. rewrite Hs.
  rewrite bool_decide_eq_false_2 by (intros H; destruct pre; discriminate).
  rewrite contains_char_app.
  replace (contains_char dot (dot :: post)) with true by reflexivity.
  rewrite orb_true_r. cbn [negb].
  rewrite rfind_last by exact Hpost.
  now rewrite slice_to_app, slice_from_app_cons.
Qed.

Lemma lstrip_snoc_nospace s c :
  isspace c = false -> lstrip (s ++ [c]) = lstrip s ++ [c].
Proof.
  intros H. induction s as [|x t IH]; simpl; [now rewrite H|].
  destruct (isspace x); [exact IH | reflexivity].
Qed.

Lemma strip_snoc_nospace s c :
  isspace c = false -> strip (s ++ [c]) = lstrip s ++ [c].
Proof.
  intros H. unfold strip. rewrite lstrip_snoc_nospace by exact H.
  now apply rstrip_snoc_nospace.
Qed.

Lemma strip_qualified p n :
  p <> [] -> strip p = p -> n <> [] -> strip n = n ->
  strip (p ++ dot :: n) = p ++ dot :: n.
Proof.
  intros Hp Sp Hn Sn.
  apply strip_id_sides in Sp as [Lp _]. apply strip_id_sides in Sn as [_ Rn].
  unfold strip. rewrite lstrip_app_nonempty by assumption.
  assert (R : rstrip (dot :: n) = dot :: n).
  { simpl. rewrite Rn. destruct n; [congruence | reflexivity]. }
  rewrite rstrip_app; rewrite R; [reflexivity | discriminate].
Qed.

End qualified_name_facts.

Section qualified_name_claims.
Import QualifiedName.

(** C3, as stated, fails: the constructor trims the two components, so
    for the trimmed input ["a .b"] the package is ["a"], not the text
    ["a "] before the last dot. *)
Lemma C3_counterexample :
  ~ (forall s pre post : str,
       strip s = s -> s = pre ++ dot :: post -> contains_char dot post = false ->
       parse s = Ok (mk pre post)).
Proof.
  intros H.
  specialize (H (py "a .b") (py "a ") (py "b") eq_refl eq_refl eq_refl).
  vm_compute in H. discriminate H.
Qed.

(** C3, amended.  For a trimmed input with its last dot between [pre] and
    [post], both non-empty after trimming, [parse] returns the package
    [pre] trimmed and the name [post] trimmed; so ["a.b.c.Name"] gives
    package ["a.b.c"] and name ["Name"], and the Cosmos keeper name splits
    before ["Keeper"]. *)
Theorem C3_parse_last_dot :
  (forall s pre post : str,
     strip s = s -> s = pre ++ dot :: post -> contains_char dot post = false ->
     strip pre <> [] -> strip post <> [] ->
     parse s = Ok (mk (strip pre) (strip post)))
  /\ parse (py "a.b.c.Name") = Ok (mk (py "a.b.c") (py "Name"))
  /\ parse (py "github.com/cosmos/cosmos-sdk/x/bank/keeper.Keeper")
     = Ok (mk (py "github.com/cosmos/cosmos-sdk/x/bank/keeper") (py "Keeper")).
Proof.
  split; [|split; vm_compute; reflexivity].
  intros s pre post Hs Hsplit Hpost Hpre Hname.
  rewrite (parse_at_last_dot s pre post) by congruence.
  rewrite new_trims.
  now rewrite !bool_decide_eq_false_2 by assumption.
Qed.

Lemma C3_parse_last_dot_witness :
  let s := py "a .b" in
  let pre := py "a " in
  let post := py "b" in
  (strip s = s /\ s = pre ++ dot :: post /\ contains_char dot post = false
   /\ strip pre <> [] /\ strip post <> [])
  /\ parse s = Ok (mk (py "a") (py "b")).
Proof.
  cbv zeta. split.
  - repeat split; try reflexivity; vm_compute; discriminate.
  - apply (proj1 C3_parse_last_dot (py "a .b") (py "a ") (py "b"));
      try reflexivity; vm_compute; discriminate.
Defined.

(** C4. For non-empty [p] and [n] that trimming leaves unchanged, [n]
    without a dot, parsing the string form of [QualifiedName(p, n)] gives
    that qualified name back. *)
Theorem C4_roundtrip (p n : str) :
  p <> [] -> strip p = p -> n <> [] -> strip n = n ->
  contains_char dot n = false ->
  exists q, new p n = Ok q /\ q = mk p n /\ parse (__str__ q) = Ok q.
Proof.
  intros Hp Sp Hn Sn Hdot.
  assert (N : new p n = Ok (mk p n)).
  { rewrite new_trims, Sp, Sn. now rewrite !bool_decide_eq_false_2 by assumption. }
  exists (mk p n). split; [exact N|]. split; [reflexivity|].
  unfold __str__. cbn [package name].
  change (py "." ++ n) with (dot :: n).
  rewrite (parse_at_last_dot _ p n); auto using strip_qualified.
Qed.

Lemma C4_roundtrip_witness :
  exists q, new (py "cosmos.bank.keeper") (py "Keeper") = Ok q
            /\ q = mk (py "cosmos.bank.keeper") (py "Keeper")
            /\ parse (__str__ q) = Ok q.
Proof.
  apply (C4_roundtrip (py "cosmos.bank.keeper") (py "Keeper"));
    try reflexivity; vm_compute; discriminate.
Defined.

(** C10. On an input with a dot, [parse] raises
    [InvalidQualifiedNameError] when the text before or after the last dot
    is empty after trimming: the package error exactly when the text before
    it trims to empty, the name error when only the text after it does.
    Every input that ends in a dot fails, and ["..."] fails by its empty
    name, its package [".."] being non-empty. *)
Theorem C10_parse_empty_component :
  (forall s pre post : str,
     strip s = pre ++ dot :: post -> contains_char dot post = false ->
     (strip pre = [] \/ strip post = [] ->
        exists msg, parse s = Raise (InvalidQualifiedNameError msg))
     /\ (parse s = Raise (InvalidQualifiedNameError (py "Package cannot be empty"))
         <-> strip pre = [])
     /\ (strip pre <> [] -> strip post = [] ->
         parse s = Raise (InvalidQualifiedNameError (py "Name cannot be empty"))))
  /\ (forall s : str,
        exists msg, parse (s ++ [dot]) = Raise (InvalidQualifiedNameError msg))
  /\ parse (py "pkg.") = Raise (InvalidQualifiedNameError (py "Name cannot be empty"))
  /\ parse (py "...") = Raise (InvalidQualifiedNameError (py "Name cannot be empty"))
  /\ strip (py "..") = py "..".
Proof.
  split; [|split; [|repeat split; vm_compute; reflexivity]].
  - intros s pre post Hs Hpost.
    rewrite (parse_at_last_dot s pre post Hs Hpost), new_trims.
    repeat split.
    + intros [H|H]; repeat case_bool_decide; eauto; congruence.
    + repeat case_bool_decide; intros E; [assumption | | discriminate E].
      injection E as E. vm_compute in E. discriminate E.
    + intros H. now rewrite bool_decide_eq_true_2.
    + intros H1 H2. now rewrite bool_decide_eq_false_2, bool_decide_eq_true_2.
  - intros s.
    rewrite (parse_at_last_dot (s ++ [dot]) (lstrip s) []);
      [| now apply strip_snoc_nospace | reflexivity].
    rewrite new_trims. repeat case_bool_decide; eauto.
    exfalso. auto.
Qed.

Lemma C10_parse_empty_component_witness :
  (strip (py " . ") = py "" ++ dot :: py ""
   /\ contains_char dot (py "") = false /\ strip (py "") = [])
  /\ parse (py " . ") = Raise (InvalidQualifiedNameError (py "Package cannot be empty")).
Proof.
  split; [repeat split|].
  apply (proj1 C10_parse_empty_component (py " . ") (py "") (py ""));
    reflexivity.
Defined.

End qualified_name_claims.

(** ** [PatternLocation] *)

Section location_facts.
Import PatternLocation LocationSpec.

(** Symbolic execution of the constructor: one case per check. *)
Ltac run_checks :=
  repeat match goal with
    | |- context [if ?b then _ else _] =>
        let E := fresh "E" in destruct b eqn:E; cbn beta iota; try reflexivity
    end.

Lemma new_checks fp ls le cs ce :
  new fp ls le cs ce =
    if ls <? 1 then
      Raise (error_of (normalized fp ls le cs ce) LineStartPositive)
    else if le <? 1 then
      Raise (error_of (normalized fp ls le cs ce) LineEndPositive)
    else if le <? ls then
      Raise (error_of (normalized fp ls le cs ce) LineEndNotBeforeStart)
    else if cs <? 0 then
      Raise (error_of (normalized fp ls le cs ce) ColumnStartNonNegative)
    else if ce <? 0 then
      Raise (error_of (normalized fp ls le cs ce) ColumnEndNonNegative)
    else if (ls =? le) && (ce <? cs) then
      Raise (error_of (normalized fp ls le cs ce) SameLineColumnOrder)
    else if bool_decide (Path.parts (as_path fp) = []) then
      Raise (error_of (normalized fp ls le cs ce) PathNonEmpty)
    else Ok (normalized fp ls le cs ce).
Proof.
  unfold new, __post_init__, normalized, error_of. run_method.
  destruct fp as [p|s];
    cbn [file_path line_start line_end column_start column_end
         set_file_path as_path];
    run_checks.
Qed.

Lemma new_Ok_inv fp ls le cs ce loc :
  new fp ls le cs ce = Ok loc ->
  loc = normalized fp ls le cs ce
  /\ 1 <= ls /\ ls <= le /\ 0 <= cs /\ 0 <= ce /\ (ls = le -> cs <= ce)
  /\ Path.parts (as_path fp) <> [].
Proof.
  rewrite new_checks. intros H.
  repeat match type of H with
    | (if ?b then _ else _) = _ =>
        let E := fresh "E" in destruct b eqn:E; [discriminate H|]
    end.
  injection H as <-.
  apply bool_decide_eq_false in E5. apply andb_false_iff in E4.
  split; [reflexivity|].
  repeat (split; [lia|]). exact E5.
Qed.

End location_facts.

Section location_claims.
Import PatternLocation LocationSpec.

(** C7. For line and column numbers that can be formatted into a
    message, the constructor raises exactly one error, the one of the
    first violated check in the order: line start positive, line end
    positive, line end not before line start, column start
    non-negative, column end non-negative, column order on a single
    line, path non-empty; and it succeeds when no check is violated.
    With several invariants violated, that is the head of the list of
    violated checks. *)
Theorem C7_first_violated_check_raises (fp : path_or_str) (ls le cs ce : Z) :
  formattable ls = true -> formattable le = true ->
  formattable cs = true -> formattable ce = true ->
  let fields := normalized fp ls le cs ce in
  new fp ls le cs ce
  = match first_violated fields with
    | Some k => Raise (error_of fields k)
    | None => Ok fields
    end
  /\ first_violated fields = head (all_violated fields).
Proof.
  intros _ _ _ _. cbv zeta. split.
  - rewrite new_checks.
    unfold first_violated, check_order, violated, normalized.
    cbn [find file_path line_start line_end column_start column_end].
    rewrite <- !Z.ltb_antisym. cbn [as_path].
    repeat match goal with
      | |- context [if ?b then _ else _] =>
          destruct b; cbn beta iota; try reflexivity
      end.
  - unfold first_violated, all_violated, check_order.
    generalize (violated (normalized fp ls le cs ce)). intros v.
    cbn [find]. rewrite !filter_cons, filter_nil.
    repeat match goal with
      | |- context [v ?k] => destruct (v k) eqn:?
      end;
      repeat case_decide; try congruence; reflexivity.
Qed.

Lemma C7_first_violated_check_raises_witness :
  (formattable 0 = true /\ formattable (-3) = true
   /\ formattable (-1) = true /\ formattable (-2) = true)
  /\ new (AStr (py ".")) 0 (-3) (-1) (-2)
     = Raise (InvalidLocationError (py "Line start must be positive, got 0")).
Proof.
  split; [repeat split; vm_compute; reflexivity|].
  etransitivity;
    [apply (C7_first_violated_check_raises (AStr (py ".")) 0 (-3) (-1) (-2));
     vm_compute; reflexivity |].
  vm_compute. reflexivity.
Defined.

(** C8. Fields within their ranges are accepted and read back as
    supplied: a path with at least one component, lines at least 1 and
    in order, columns at least 0, and columns in order when the lines
    coincide (no column order is required across lines).  A path given
    as a [Path] is stored as it is, one given as a string as the [Path]
    built from it. *)
Theorem C8_valid_fields_round_trip (fp : path_or_str) (ls le cs ce : Z) :
  Path.parts (as_path fp) <> [] ->
  1 <= ls -> ls <= le -> 0 <= cs -> 0 <= ce -> (ls = le -> cs <= ce) ->
  exists loc,
    new fp ls le cs ce = Ok loc
    /\ file_path loc = APath (as_path fp)
    /\ (forall p, fp = APath p -> file_path loc = APath p)
    /\ line_start loc = ls /\ line_end loc = le
    /\ column_start loc = cs /\ column_end loc = ce.
Proof.
  intros Hp H1 H2 H3 H4 H5.
  exists (normalized fp ls le cs ce). split; [|repeat split].
  - rewrite new_checks.
    rewrite !(proj2 (Z.ltb_ge _ _)) by lia.
    destruct (Z.eqb_spec ls le) as [E|E]; cbn [andb].
    + rewrite (proj2 (Z.ltb_ge _ _)) by auto.
      now rewrite bool_decide_eq_false_2.
    + now rewrite bool_decide_eq_false_2.
  - now intros p ->.
Qed.

Lemma C8_valid_fields_round_trip_witness :
  let fp := APath (Path.of_str (py "test.go")) in
  exists loc,
    new fp 10 20 15 5 = Ok loc
    /\ file_path loc = APath (as_path fp)
    /\ (forall p, fp = APath p -> file_path loc = APath p)
    /\ line_start loc = 10 /\ line_end loc = 20
    /\ column_start loc = 15 /\ column_end loc = 5.
Proof.
  apply (C8_valid_fields_round_trip
           (APath (Path.of_str (py "test.go"))) 10 20 15 5);
    try lia.
  vm_compute. discriminate.
Defined.

(** C9. With line and column numbers that can be formatted, the string
    form of a constructed location is
    [path:line_start:column_start-column_end] on a single line and
    [path:line_start:column_start-line_end:column_end] otherwise; the
    whole-line location of line 142 of [keeper.go] reads
    [keeper.go:142:0-0]. *)
Theorem C9_string_form :
  (forall (fp : path_or_str) (ls le cs ce : Z) (loc : t),
     new fp ls le cs ce = Ok loc ->
     formattable ls = true -> formattable le = true ->
     formattable cs = true -> formattable ce = true ->
     let path := Path.__str__ (as_path fp) in
     (ls = le ->
      __str__ loc
      = path ++ py ":" ++ str_of_int ls ++ py ":" ++ str_of_int cs
          ++ py "-" ++ str_of_int ce)
     /\ (ls <> le ->
         __str__ loc
         = path ++ py ":" ++ str_of_int ls ++ py ":" ++ str_of_int cs
             ++ py "-" ++ str_of_int le ++ py ":" ++ str_of_int ce))
  /\ (exists loc, at_line (AStr (py "keeper.go")) 142 = Ok loc
                 /\ __str__ loc = py "keeper.go:142:0-0").
Proof.
  split.
  - intros fp ls le cs ce loc H _ _ _ _.
    apply new_Ok_inv in H as [-> _]. cbv zeta.
    unfold __str__, normalized.
    cbn [file_path line_start line_end column_start column_end format_path].
    split; intros E.
    + now rewrite (proj2 (Z.eqb_eq _ _) E).
    + now rewrite (proj2 (Z.eqb_neq _ _) E).
  - eexists. split; vm_compute; reflexivity.
Qed.

Lemma C9_string_form_witness :
  let fp := APath (Path.of_str (py "keeper.go")) in
  let loc := normalized fp 142 158 0 4 in
  (new fp 142 158 0 4 = Ok loc
   /\ formattable 142 = true /\ formattable 158 = true
   /\ formattable 0 = true /\ formattable 4 = true)
  /\ __str__ loc = py "keeper.go:142:0-158:4".
Proof.
  cbv zeta.
  assert (H : new (APath (Path.of_str (py "keeper.go"))) 142 158 0 4
              = Ok (normalized (APath (Path.of_str (py "keeper.go"))) 142 158 0 4))
    by (vm_compute; reflexivity).
  assert (F1 : formattable 142 = true) by (vm_compute; reflexivity).
  assert (F2 : formattable 158 = true) by (vm_compute; reflexivity).
  assert (F3 : formattable 0 = true) by (vm_compute; reflexivity).
  assert (F4 : formattable 4 = true) by (vm_compute; reflexivity).
  split; [auto|].
  destruct (proj1 C9_string_form _ _ _ _ _ _ H F1 F2 F3 F4) as [_ W].
  rewrite W by lia. vm_compute. reflexivity.
Defined.

End location_claims.

(** ** [KeeperPattern] and [PatternRelation] *)

Section keeper_claims.
Import KeeperPattern.

(** C5. [validate] raises exactly when [store_keys] is empty, and then an
    [ExtractionError] whose message contains "store key"; with at least
    one store key it returns, whatever the dependencies, and the
    pattern is as before. *)
Theorem C5_validate_store_keys (k : t) :
  (store_keys k = [] ->
   exists msg, validate k = Raise (ExtractionError msg)
               /\ contains msg (py "store key") = true)
  /\ (forall e, validate k = Raise e -> store_keys k = [])
  /\ (store_keys k <> [] -> validate k = Ok (tt, k)).
Proof.
  unfold validate. run_method.
  repeat split.
  - intros ->. rewrite bool_decide_eq_true_2 by reflexivity.
    eexists. split; [reflexivity|].
    change (py "' must have at least one store key")
      with (py "' must have at least one " ++ py "store key" ++ []).
    rewrite !app_assoc. rewrite <- (app_assoc _ (py "store key") []).
    apply contains_app.
  - intros e. case_bool_decide; [auto | discriminate].
  - intros H. now rewrite bool_decide_eq_false_2.
Qed.

Lemma C5_validate_store_keys_witness :
  let k :=
    mk (LocationSpec.normalized
          (PatternLocation.AStr (py "keeper.go")) 142 142 0 0)
       (ConfidenceScore.mk (pyfloat.literal 95 100))
       KEEPER COSMOS_SDK
       (QualifiedName.mk (py "cosmos.bank.keeper") (py "Keeper"))
       [py "bank"; py "supply"] [] in
  store_keys k <> [] /\ validate k = Ok (tt, k).
Proof.
  cbv zeta. split; [discriminate|].
  apply C5_validate_store_keys. discriminate.
Defined.

End keeper_claims.

Section relation_claims.
Import PatternRelation.

(** C6. Constructing a relation raises exactly when source and target
    are the same instance, and then an [ExtractionError] whose message
    contains "source and target"; two distinct instances relate, also
    when they hold equal values. *)
Theorem C6_same_instance_rejected
    (s t : instance Pattern) (rt : RelationType) (md : gmap str json) :
  (oid s = oid t ->
   exists msg, new s t rt md = Raise (ExtractionError msg)
               /\ contains msg (py "source and target") = true)
  /\ (forall e, new s t rt md = Raise e -> oid s = oid t)
  /\ (oid s <> oid t -> new s t rt md = Ok (mk s t rt md))
  /\ (oid s <> oid t -> val s = val t -> new s t rt md = Ok (mk s t rt md)).
Proof.
  unfold new, __post_init__, is_. run_method. cbn [source target].
  repeat split.
  - intros H. rewrite bool_decide_eq_true_2 by exact H.
    eexists. split; [reflexivity|]. vm_compute. reflexivity.
  - intros e. case_bool_decide; [auto | discriminate].
  - intros H. now rewrite bool_decide_eq_false_2.
  - intros H _. now rewrite bool_decide_eq_false_2.
Qed.

Lemma C6_same_instance_rejected_witness :
  let p :=
    Keeper (KeeperPattern.mk
              (LocationSpec.normalized
                 (PatternLocation.AStr (py "keeper.go")) 10 10 0 0)
              (ConfidenceScore.mk (pyfloat.literal 9 10))
              KEEPER COSMOS_SDK
              (QualifiedName.mk (py "cosmos.bank.keeper") (py "Keeper"))
              [py "bank"] []) in
  let a := mk_instance 1%N p in
  let b := mk_instance 2%N p in
  (oid a <> oid b /\ val a = val b)
  /\ new a b CALLS ∅ = Ok (mk a b CALLS ∅).
Proof.
  cbv zeta. split; [split; [discriminate | reflexivity]|].
  apply C6_same_instance_rejected; [discriminate | reflexivity].
Defined.

End relation_claims.

Section hash_facts.
Import pyhash PatternRelation.
Variable hash_str : str -> Z.
Variable hash_int : Z -> Z.
Variable hash_float : pyfloat.float -> Z.
Variable hash_path : Path.t -> Z.
Variable combine : list Z -> Z.

Lemma hash_tuple_from_Ok items acc :
  Forall (fun r => exists z, r = Ok z) items ->
  exists z, hash_tuple_from combine items acc = Ok z.
Proof.
  intros H. revert acc. induction H as [|r rest [z ->] _ IH]; intros acc.
  - simpl. eauto.
  - simpl. apply IH.
Qed.

Lemma hash_tuple_Ok items :
  Forall (fun r => exists z, r = Ok z) items ->
  exists z, hash_tuple combine items = Ok z.
Proof. apply hash_tuple_from_Ok. Qed.

Lemma hash_QualifiedName_Ok q :
  exists z, hash_QualifiedName hash_str combine q = Ok z.
Proof. apply hash_tuple_Ok. repeat constructor; eauto. Qed.

Lemma hash_PatternLocation_Ok l :
  exists z, hash_PatternLocation hash_str hash_int hash_path combine l = Ok z.
Proof.
  apply hash_tuple_Ok. repeat constructor; eauto.
  unfold hash_path_or_str. destruct (PatternLocation.file_path l); eauto.
Qed.

Lemma hash_ConfidenceScore_Ok c :
  exists z, hash_ConfidenceScore hash_float combine c = Ok z.
Proof. apply hash_tuple_Ok. repeat constructor; eauto. Qed.

Lemma hash_Pattern_Ok p :
  exists z,
    hash_Pattern hash_str hash_int hash_float hash_path combine p = Ok z.
Proof.
  destruct p as [k|h]; apply hash_tuple_Ok;
    repeat (apply Forall_cons; split);
    eauto using hash_PatternLocation_Ok, hash_ConfidenceScore_Ok,
      hash_QualifiedName_Ok;
    try apply Forall_nil;
    apply hash_tuple_Ok, Forall_forall; intros r Hr;
    apply list_elem_of_In, in_map_iff in Hr as (x & <- & _);
    eauto using hash_QualifiedName_Ok.
Qed.

(** C1. Hashing a relation hashes the tuple of its four fields; the
    last one, [metadata], is a [dict], so the hash of every relation
    raises [TypeError]: no relation is hashable. *)
Theorem C1_relation_hash_raises (r : PatternRelation.t) :
  hash_PatternRelation hash_str hash_int hash_float hash_path combine r
  = Raise (TypeError (py "unhashable type: 'dict'")).
Proof.
  unfold hash_PatternRelation, hash_tuple.
  destruct (hash_Pattern_Ok (val (source r))) as [zs ->].
  destruct (hash_Pattern_Ok (val (target r))) as [zt ->].
  reflexivity.
Qed.

End hash_facts.

(** ** [ConfidenceScore] *)

Section float_order.
Import pyfloat.
Implicit Types x y z : float.

Lemma SFcompare_antisym x y r :
  SFcompare x y = Some r -> SFcompare y x = Some (CompOpp r).
Proof.
  destruct x as [[]|[]| |[] mx ex], y as [[]|[]| |[] my ey]; simpl;
    intros H; try discriminate H; try (injection H as <-; reflexivity);
    injection H as <-; f_equal;
    change (Pos.compare_cont Eq) with Pos.compare;
    rewrite (Z.compare_antisym ex ey), (Pos.compare_antisym mx my);
    destruct (ex ?= ey), (mx ?= my)%positive; reflexivity.
Qed.

Lemma SFcompare_Lt_trans x y z :
  SFcompare x y = Some Lt -> SFcompare y z = Some Lt ->
  SFcompare x z = Some Lt.
Proof.
  destruct x as [[]|[]| |[] mx ex], y as [[]|[]| |[] my ey],
           z as [[]|[]| |[] mz ez]; simpl;
    intros H1 H2; try discriminate H1; try discriminate H2;
    try reflexivity;
    injection H1 as H1; injection H2 as H2; f_equal;
    change (Pos.compare_cont Eq) with Pos.compare in *;
    destruct (Z.compare_spec ex ey), (Z.compare_spec ey ez),
             (Z.compare_spec ex ez);
    try discriminate; try lia; try reflexivity;
    destruct (Pos.compare_spec mx my), (Pos.compare_spec my mz),
             (Pos.compare_spec mx mz);
    simpl in *; try discriminate; try lia; reflexivity.
Qed.

Lemma float_lt_le_false x y : lt x y = true -> le y x = false.
Proof.
  unfold lt, le, SFltb, SFleb. destruct (SFcompare x y) as [[]|] eqn:E;
    try discriminate. intros _.
  now rewrite (SFcompare_antisym _ _ _ E).
Qed.

Lemma float_le_lt_false x y : le x y = true -> lt y x = false.
Proof.
  unfold lt, le, SFltb, SFleb. destruct (SFcompare x y) as [[]|] eqn:E;
    try discriminate; intros _;
    now rewrite (SFcompare_antisym _ _ _ E).
Qed.

Lemma float_lt_lt_false x y : lt x y = true -> lt y x = false.
Proof.
  unfold lt, SFltb. destruct (SFcompare x y) as [[]|] eqn:E;
    try discriminate. intros _.
  now rewrite (SFcompare_antisym _ _ _ E).
Qed.

Lemma float_lt_trans x y z : lt x y = true -> lt y z = true -> lt x z = true.
Proof.
  unfold lt, SFltb.
  destruct (SFcompare x y) as [[]|] eqn:E1; try discriminate.
  destruct (SFcompare y z) as [[]|] eqn:E2; try discriminate.
  intros _ _. now rewrite (SFcompare_Lt_trans _ _ _ E1 E2).
Qed.

Lemma float_lt_ne x y : lt x y = true -> ne y x = true.
Proof.
  unfold lt, ne, SFltb, SFeqb. destruct (SFcompare x y) as [[]|] eqn:E;
    try discriminate. intros _.
  now rewrite (SFcompare_antisym _ _ _ E).
Qed.

Lemma float_lt_ne_l x y : lt x y = true -> ne x y = true.
Proof.
  unfold lt, ne, SFltb, SFeqb.
  destruct (SFcompare x y) as [[]|]; try discriminate. reflexivity.
Qed.

End float_order.

Section confidence_claims.
Import pyfloat ConfidenceScore.
Variable format_float : float -> str.

(** The constants of the source, as binary64 values.  [EPSILON] is the
    value nearest to [1/100000]: it is off by less than half a unit in
    the last place, that is by less than [2^-70]. *)
Lemma EPSILON_value : EPSILON = S754_finite false 5902958103587057 (-69).
Proof. vm_compute. reflexivity. Qed.

Lemma EPSILON_nearest :
  2 * Z.abs (5902958103587057 * 100000 - 2 ^ 69) <= 100000.
Proof. vm_compute. discriminate. Qed.

Lemma upper_tolerance_value :
  add one EPSILON = S754_finite false 4503644663366770 (-52).
Proof. vm_compute. reflexivity. Qed.

Lemma lower_lt_zero : lt (neg EPSILON) zero = true.
Proof. vm_compute. reflexivity. Qed.
Lemma zero_lt_one : lt zero one = true.
Proof. vm_compute. reflexivity. Qed.
Lemma one_lt_upper : lt one (add one EPSILON) = true.
Proof. vm_compute. reflexivity. Qed.

(** What the constructor does once the two tolerance tests are decided. *)
Lemma new_unchanged c :
  le (neg EPSILON) c && lt c zero = false ->
  lt one c && le c (add one EPSILON) = false ->
  new format_float c =
    if le zero c && le c one then Ok (mk c)
    else Raise (InvalidConfidenceScoreError
                  (py "Confidence score must be between 0.0 and 1.0, got "
                     ++ format_float c)).
Proof.
  intros H1 H2. unfold new, __post_init__. run_method.
  cbn [value]. rewrite H1, H2.
  destruct (ne c c); cbn [value set_value];
    destruct (le zero c && le c one); reflexivity.
Qed.

(** C2. Values from [-EPSILON] up to but excluding [0.0] become [0.0],
    values above [1.0] up to [1.0 + EPSILON] become [1.0], values in
    [[0.0, 1.0]] are kept, and values below [-EPSILON] or above
    [1.0 + EPSILON] are rejected with [InvalidConfidenceScoreError]. *)
Theorem C2_confidence_normalization (c : float) :
  (le (neg EPSILON) c = true -> lt c zero = true ->
   new format_float c = Ok (mk zero))
  /\ (lt one c = true -> le c (add one EPSILON) = true ->
      new format_float c = Ok (mk one))
  /\ (le zero c = true -> le c one = true ->
      new format_float c = Ok (mk c))
  /\ (lt c (neg EPSILON) = true \/ lt (add one EPSILON) c = true ->
      exists msg,
        new format_float c = Raise (InvalidConfidenceScoreError msg)).
Proof.
  repeat split.
  - intros H1 H2. unfold new, __post_init__. run_method.
    cbn [value]. rewrite H1, H2. cbn [andb].
    rewrite (float_lt_ne _ _ H2). reflexivity.
  - intros H1 H2. unfold new, __post_init__. run_method.
    cbn [value].
    rewrite (float_lt_lt_false _ _ (float_lt_trans _ _ _ zero_lt_one H1)), andb_false_r.
    rewrite H1, H2. cbn [andb]. rewrite (float_lt_ne_l _ _ H1). reflexivity.
  - intros H1 H2. rewrite new_unchanged.
    + now rewrite H1, H2.
    + now rewrite (float_le_lt_false _ _ H1), andb_false_r.
    + now rewrite (float_le_lt_false _ _ H2).
  - intros [H|H]; rewrite new_unchanged.
    + rewrite (float_lt_le_false _ _ (float_lt_trans _ _ _ H lower_lt_zero)). eauto.
    + now rewrite (float_lt_le_false _ _ H).
    + rewrite (float_lt_lt_false _ _
                 (float_lt_trans _ _ _ H (float_lt_trans _ _ _ lower_lt_zero zero_lt_one))).
      reflexivity.
    + rewrite (float_lt_le_false _ _ (float_lt_trans _ _ _ one_lt_upper H)), andb_false_r.
      eauto.
    + rewrite (float_lt_lt_false _ _
                 (float_lt_trans _ _ _ (float_lt_trans _ _ _ zero_lt_one one_lt_upper) H)).
      apply andb_false_r.
    + now rewrite (float_lt_le_false _ _ H), andb_false_r.
Qed.

End confidence_claims.

(** Witness of C2: [1.00001] is within the tolerance above [1.0]. *)
Lemma C2_confidence_normalization_witness :
  let c := pyfloat.literal 100001 100000 in
  (pyfloat.lt pyfloat.one c = true
   /\ pyfloat.le c (pyfloat.add pyfloat.one ConfidenceScore.EPSILON) = true)
  /\ ConfidenceScore.new (fun _ => []) c = Ok (ConfidenceScore.mk pyfloat.one).
Proof.
  cbv zeta. split; [split; vm_compute; reflexivity|].
  apply (C2_confidence_normalization (fun _ => [])); vm_compute; reflexivity.
Defined.


(** ** More on strings and [QualifiedName] *)

Section strip_facts.
Implicit Types (s p n ws : str) (c : char).

Lemma rstrip_idem s : rstrip (rstrip s) = rstrip s.
Proof.
  induction s as [|c t IH]; [reflexivity|]. simpl.
  destruct (rstrip t) as [|x t'] eqn:E.
  - destruct (isspace c) eqn:Ec; simpl; [reflexivity | now rewrite Ec].
  - simpl in *. now rewrite IH.
Qed.

Lemma lstrip_head s :
  lstrip s = [] \/ exists c t, lstrip s = c :: t /\ isspace c = false.
Proof.
  induction s as [|c t IH]; simpl; [now left|].
  destruct (isspace c) eqn:E; [exact IH | right; eauto].
Qed.

Lemma rstrip_cons_nospace c t :
  isspace c = false -> exists t', rstrip (c :: t) = c :: t'.
Proof. intros H. simpl. rewrite H. destruct (rstrip t); eauto. Qed.

Lemma strip_idem s : strip (strip s) = strip s.
Proof.
  unfold strip.
  assert (L : lstrip (rstrip (lstrip s)) = rstrip (lstrip s)).
  { destruct (lstrip_head s) as [->|(c & t & -> & Hc)]; [reflexivity|].
    destruct (rstrip_cons_nospace c t Hc) as [t' ->]. simpl. now rewrite Hc. }
  rewrite L. apply rstrip_idem.
Qed.

Lemma lstrip_spaces_app ws s :
  forallb isspace ws = true -> lstrip (ws ++ s) = lstrip s.
Proof.
  induction ws as [|c t IH]; simpl; [reflexivity|].
  intros H. apply andb_true_iff in H as [-> H]. auto.
Qed.

Lemma rstrip_app_spaces s ws :
  forallb isspace ws = true -> rstrip (s ++ ws) = rstrip s.
Proof.
  intros H. induction s as [|c t IH]; simpl.
  - induction ws as [|c t IH]; simpl; [reflexivity|].
    simpl in H. apply andb_true_iff in H as [Hc H].
    now rewrite (IH H), Hc.
  - now rewrite IH.
Qed.

Lemma lstrip_app_spaces s ws :
  forallb isspace ws = true ->
  lstrip (s ++ ws) = if bool_decide (lstrip s = []) then [] else lstrip s ++ ws.
Proof.
  intros H. induction s as [|c t IH]; simpl.
  - rewrite <- (app_nil_r ws) at 1. now rewrite lstrip_spaces_app.
  - destruct (isspace c); [exact IH | reflexivity].
Qed.

(** Whitespace around a string does not change what [strip] returns. *)
Lemma strip_padded ws1 s ws2 :
  forallb isspace ws1 = true -> forallb isspace ws2 = true ->
  strip (ws1 ++ s ++ ws2) = strip s.
Proof.
  intros H1 H2. unfold strip.
  rewrite lstrip_spaces_app, lstrip_app_spaces by assumption.
  case_bool_decide as E; [now rewrite E|].
  now apply rstrip_app_spaces.
Qed.

Lemma contains_char_lstrip c s :
  isspace c = false -> contains_char c (lstrip s) = contains_char c s.
Proof.
  intros Hc. induction s as [|x t IH]; simpl; [reflexivity|].
  destruct (isspace x) eqn:Ex; [|reflexivity].
  rewrite IH. destruct (N.eqb_spec c x) as [->|]; [congruence | reflexivity].
Qed.

Lemma contains_char_rstrip c s :
  isspace c = false -> contains_char c (rstrip s) = contains_char c s.
Proof.
  intros Hc. induction s as [|x t IH]; simpl; [reflexivity|].
  destruct (rstrip t) as [|y t'] eqn:E.
  - rewrite <- IH. simpl. rewrite orb_false_r.
    destruct (isspace x) eqn:Ex; simpl; [|now rewrite orb_false_r].
    destruct (N.eqb_spec c x) as [->|]; [congruence | reflexivity].
  - change (contains_char c (x :: y :: t'))
      with ((c =? x)%N || contains_char c (y :: t')).
    now rewrite IH.
Qed.

Lemma contains_char_strip c s :
  isspace c = false -> contains_char c (strip s) = contains_char c s.
Proof.
  intros Hc. unfold strip.
  now rewrite contains_char_rstrip, contains_char_lstrip.
Qed.

(** A string that contains [c] splits at the last [c]. *)
Lemma split_at_last c s :
  contains_char c s = true ->
  exists pre post, s = pre ++ c :: post /\ contains_char c post = false.
Proof.
  induction s as [|x t IH]; simpl; [discriminate|].
  destruct (contains_char c t) eqn:E.
  - intros _. destruct (IH eq_refl) as (pre & post & -> & H).
    exists (x :: pre), post. auto.
  - rewrite orb_false_r. intros H. apply N.eqb_eq in H as <-.
    exists [], t. auto.
Qed.

End strip_facts.

Section qualified_name_more.
Import QualifiedName.
Implicit Types (s p n pre post : str) (q : t).

Lemma new_Ok_inv_qn p n q :
  new p n = Ok q ->
  strip p <> [] /\ strip n <> [] /\ q = mk (strip p) (strip n).
Proof.
  rewrite new_trims. repeat case_bool_decide; try discriminate.
  intros E. injection E as <-. auto.
Qed.

Lemma new_Raise_inv p n e :
  new p n = Raise e -> exists msg, e = InvalidQualifiedNameError msg.
Proof.
  rewrite new_trims. repeat case_bool_decide; try discriminate;
    intros E; injection E as <-; eauto.
Qed.

(** A successful [parse] went through the split at the last dot. *)
Lemma parse_Ok_split s q :
  parse s = Ok q ->
  exists pre post,
    strip s = pre ++ dot :: post /\ contains_char dot post = false
    /\ strip pre <> [] /\ strip post <> []
    /\ q = mk (strip pre) (strip post).
Proof.
  intros H.
  destruct (contains_char dot (strip s)) eqn:D.
  - destruct (split_at_last _ _ D) as (pre & post & E & Hpost).
    rewrite (parse_at_last_dot s pre post E Hpost) in H.
    apply new_Ok_inv_qn in H. exists pre, post. tauto.
  - unfold parse in H. rewrite D in H.
    case_bool_decide; discriminate H.
Qed.

Lemma parse_Raise_inv s e :
  parse s = Raise e -> exists msg, e = InvalidQualifiedNameError msg.
Proof.
  unfold parse.
  case_bool_decide; [intros E; injection E as <-; eauto|].
  destruct (contains_char dot (strip s)); cbn [negb];
    [apply new_Raise_inv | intros E; injection E as <-; eauto].
Qed.

(** X1. The constructor stores both components trimmed; it raises
    [InvalidQualifiedNameError], and nothing else, exactly when one of
    them is blank, reporting the package first. *)
Theorem QualifiedName_new_outcome p n :
  (strip p = [] ->
   new p n = Raise (InvalidQualifiedNameError (py "Package cannot be empty")))
  /\ (strip p <> [] -> strip n = [] ->
      new p n = Raise (InvalidQualifiedNameError (py "Name cannot be empty")))
  /\ (strip p <> [] -> strip n <> [] -> new p n = Ok (mk (strip p) (strip n)))
  /\ (forall e, new p n = Raise e -> exists msg, e = InvalidQualifiedNameError msg)
  /\ (forall q, new p n = Ok q -> strip p <> [] /\ strip n <> []).
Proof.
  repeat split; try (rewrite new_trims; repeat case_bool_decide; congruence).
  - apply new_Raise_inv.
  - now apply new_Ok_inv_qn in H.
  - now apply new_Ok_inv_qn in H.
Qed.

Lemma QualifiedName_new_outcome_witness :
  (strip (py "  ") = [])
  /\ new (py "  ") (py "") = Raise (InvalidQualifiedNameError (py "Package cannot be empty")).
Proof.
  split; [reflexivity|].
  apply (proj1 (QualifiedName_new_outcome (py "  ") (py ""))). reflexivity.
Defined.

(** X2. Every constructed qualified name has non-empty components without
    surrounding whitespace, and constructing again from its own fields
    returns it unchanged. *)
Theorem QualifiedName_new_invariant p n q :
  new p n = Ok q ->
  package q <> [] /\ name q <> []
  /\ strip (package q) = package q /\ strip (name q) = name q
  /\ new (package q) (name q) = Ok q.
Proof.
  intros H. apply new_Ok_inv_qn in H as (Hp & Hn & ->). cbn [package name].
  repeat split; auto using strip_idem.
  rewrite new_trims, !strip_idem.
  now rewrite !bool_decide_eq_false_2 by assumption.
Qed.

Lemma QualifiedName_new_invariant_witness :
  let q := mk (py "main") (py "App") in
  new (py "  main  ") (py " App") = Ok q
  /\ new (package q) (name q) = Ok q.
Proof.
  cbv zeta.
  assert (H : new (py "  main  ") (py " App") = Ok (mk (py "main") (py "App")))
    by (vm_compute; reflexivity).
  split; [exact H|].
  apply (QualifiedName_new_invariant _ _ _ H).
Defined.

(** X3. [parse] ignores whitespace around its input. *)
Theorem parse_ignores_padding ws1 s ws2 :
  forallb isspace ws1 = true -> forallb isspace ws2 = true ->
  parse (ws1 ++ s ++ ws2) = parse s.
Proof.
  intros H1 H2. unfold parse. now rewrite strip_padded.
Qed.

Lemma parse_ignores_padding_witness :
  (forallb isspace (py "  ") = true /\ forallb isspace (py " ") = true)
  /\ parse (py "  " ++ py "main.App" ++ py " ") = parse (py "main.App").
Proof.
  split; [split; reflexivity|].
  apply parse_ignores_padding; reflexivity.
Defined.

(** X4. Before it splits, [parse] rejects a blank input and an input
    without a dot, quoting the trimmed input in the second message; it
    never raises anything but [InvalidQualifiedNameError]. *)
Theorem parse_rejects_blank_and_dotless s :
  (strip s = [] ->
   parse s = Raise (InvalidQualifiedNameError (py "Qualified name cannot be empty")))
  /\ (strip s <> [] -> contains_char dot s = false ->
      parse s = Raise (InvalidQualifiedNameError
                         (py "Qualified name must contain at least one '.' separator, got '"
                            ++ strip s ++ py "'")))
  /\ (forall e, parse s = Raise e -> exists msg, e = InvalidQualifiedNameError msg).
Proof.
  repeat split.
  - intros H. unfold parse. now rewrite bool_decide_eq_true_2.
  - intros H D. unfold parse. rewrite bool_decide_eq_false_2 by exact H.
    now rewrite contains_char_strip, D.
  - apply parse_Raise_inv.
Qed.

Lemma parse_rejects_blank_and_dotless_witness :
  (strip (py " NoPackage ") <> [] /\ contains_char dot (py " NoPackage ") = false)
  /\ parse (py " NoPackage ")
     = Raise (InvalidQualifiedNameError
                (py "Qualified name must contain at least one '.' separator, got 'NoPackage'")).
Proof.
  split; [split; [vm_compute; discriminate | reflexivity]|].
  apply (proj1 (proj2 (parse_rejects_blank_and_dotless (py " NoPackage "))));
    [vm_compute; discriminate | reflexivity].
Defined.

(** X5. A parsed name never contains a dot, the input did contain one,
    and both components are non-empty and free of surrounding
    whitespace. *)
Theorem parse_Ok_components s q :
  parse s = Ok q ->
  contains_char dot s = true
  /\ contains_char dot (name q) = false
  /\ package q <> [] /\ name q <> []
  /\ strip (package q) = package q /\ strip (name q) = name q.
Proof.
  intros H. apply parse_Ok_split in H as (pre & post & E & D & Hp & Hn & ->).
  cbn [package name]. repeat split; auto using strip_idem.
  - rewrite <- (contains_char_strip dot s) by reflexivity.
    rewrite E, contains_char_app.
    replace (contains_char dot (dot :: post)) with true by reflexivity.
    apply orb_true_r.
  - now rewrite contains_char_strip.
Qed.

Lemma parse_Ok_components_witness :
  let q := mk (py "a.b") (py "c") in
  parse (py " a.b. c") = Ok q /\ contains_char dot (name q) = false.
Proof.
  cbv zeta.
  assert (H : parse (py " a.b. c") = Ok (mk (py "a.b") (py "c")))
    by (vm_compute; reflexivity).
  split; [exact H|].
  apply (parse_Ok_components _ _ H).
Defined.

(** X6. The string form of a parsed name parses back to the same name. *)
Theorem parse_str_of_parsed s q :
  parse s = Ok q -> parse (__str__ q) = Ok q.
Proof.
  intros H. apply parse_Ok_split in H as (pre & post & E & D & Hp & Hn & ->).
  unfold __str__. cbn [package name].
  change (py "." ++ strip post) with (dot :: strip post).
  rewrite (parse_at_last_dot _ (strip pre) (strip post)).
  - rewrite new_trims, !strip_idem.
    now rewrite !bool_decide_eq_false_2 by assumption.
  - apply strip_qualified; auto using strip_idem.
  - now rewrite contains_char_strip.
Qed.

Lemma parse_str_of_parsed_witness :
  let q := mk (py "a.b") (py "c") in
  parse (py " a.b. c") = Ok q /\ parse (__str__ q) = Ok q.
Proof.
  cbv zeta.
  assert (H : parse (py " a.b. c") = Ok (mk (py "a.b") (py "c")))
    by (vm_compute; reflexivity).
  split; [exact H|].
  apply (parse_str_of_parsed _ _ H).
Defined.

(** X7. A dot inside the name is accepted by the constructor but moves
    the split: parsing the string form of [QualifiedName(p, a.b)] gives
    package [p.a] and name [b], not the original. *)
Theorem dotted_name_shifts_split (p a b : str) :
  p <> [] -> strip p = p -> a <> [] -> strip a = a ->
  b <> [] -> strip b = b -> contains_char dot b = false ->
  new p (a ++ dot :: b) = Ok (mk p (a ++ dot :: b))
  /\ parse (__str__ (mk p (a ++ dot :: b))) = Ok (mk (p ++ dot :: a) b)
  /\ mk (p ++ dot :: a) b <> mk p (a ++ dot :: b).
Proof.
  intros Hp Sp Ha Sa Hb Sb D.
  assert (Sab : strip (a ++ dot :: b) = a ++ dot :: b)
    by now apply strip_qualified.
  assert (Spa : strip (p ++ dot :: a) = p ++ dot :: a)
    by now apply strip_qualified.
  repeat split.
  - rewrite new_trims, Sp, Sab.
    rewrite !bool_decide_eq_false_2; [reflexivity | | assumption].
    intros E. destruct a; discriminate E.
  - unfold __str__. cbn [package name].
    change (py "." ++ a ++ dot :: b) with (dot :: a ++ dot :: b).
    replace (p ++ dot :: a ++ dot :: b) with ((p ++ dot :: a) ++ dot :: b)
      by now rewrite <- app_assoc.
    rewrite (parse_at_last_dot _ (p ++ dot :: a) b).
    + rewrite new_trims, Spa, Sb.
      rewrite !bool_decide_eq_false_2; [reflexivity | assumption |].
      intros E. destruct p; discriminate E.
    + apply strip_qualified; auto. intros E. destruct p; discriminate E.
    + exact D.
  - intros E. injection E as E1 E2.
    apply (f_equal (@length _)) in E2. rewrite length_app in E2.
    simpl in E2. lia.
Qed.

Lemma dotted_name_shifts_split_witness :
  parse (__str__ (mk (py "a") (py "b.c"))) = Ok (mk (py "a.b") (py "c")).
Proof.
  apply (dotted_name_shifts_split (py "a") (py "b") (py "c"));
    try reflexivity; vm_compute; discriminate.
Defined.

End qualified_name_more.

(** ** More on [ConfidenceScore] *)

Section float_order_more.
Import pyfloat.
Implicit Types x y z : float.

Lemma SFcompare_Eq_l x y z :
  SFcompare x y = Some Eq -> SFcompare y z = SFcompare x z.
Proof.
  destruct x as [[]|[]| |[] mx ex], y as [[]|[]| |[] my ey]; simpl;
    intros H; try discriminate H; try reflexivity;
    injection H as H;
    change (Pos.compare_cont Eq) with Pos.compare in *;
    destruct (Z.compare_spec ex ey); try discriminate H;
    destruct (Pos.compare_spec mx my); try discriminate H;
    subst; reflexivity.
Qed.

Lemma SFcompare_Eq_sym x y :
  SFcompare x y = Some Eq -> SFcompare y x = Some Eq.
Proof. intros H. now rewrite (SFcompare_antisym _ _ _ H). Qed.

Lemma SFcompare_total x y :
  is_nan x = false -> is_nan y = false -> exists r, SFcompare x y = Some r.
Proof.
  destruct x as [[]|[]| |[] mx ex], y as [[]|[]| |[] my ey]; simpl;
    intros; try discriminate; eauto.
Qed.

Lemma float_le_not_nan x y :
  le x y = true -> is_nan x = false /\ is_nan y = false.
Proof.
  unfold le, SFleb. destruct x, y; simpl; try discriminate; auto.
Qed.

Lemma float_lt_le x y : lt x y = true -> le x y = true.
Proof.
  unfold lt, le, SFltb, SFleb.
  destruct (SFcompare x y) as [[]|]; try discriminate; reflexivity.
Qed.

Lemma float_not_lt_le x y :
  is_nan x = false -> is_nan y = false -> lt x y = false -> le y x = true.
Proof.
  intros Hx Hy. destruct (SFcompare_total x y Hx Hy) as [r E].
  unfold lt, le, SFltb, SFleb. rewrite E, (SFcompare_antisym _ _ _ E).
  destruct r; simpl; congruence.
Qed.

Lemma float_le_lt_trans x y z :
  le x y = true -> lt y z = true -> lt x z = true.
Proof.
  unfold le, SFleb. destruct (SFcompare x y) as [[]|] eqn:E; try discriminate;
    intros _ H.
  - unfold lt, SFltb in *. now rewrite <- (SFcompare_Eq_l _ _ z E).
  - apply (float_lt_trans x y z); [|exact H].
    unfold lt, SFltb. now rewrite E.
Qed.

Lemma float_lt_le_trans x y z :
  lt x y = true -> le y z = true -> lt x z = true.
Proof.
  intros H. unfold le, SFleb.
  destruct (SFcompare y z) as [[]|] eqn:E; try discriminate; intros _.
  - unfold lt, SFltb in *.
    destruct (SFcompare x y) as [[]|] eqn:E1; try discriminate.
    apply SFcompare_antisym in E1. simpl in E1.
    rewrite <- (SFcompare_Eq_l _ _ x E) in E1.
    apply SFcompare_antisym in E1. now rewrite E1.
  - apply (float_lt_trans x y z); [exact H|].
    unfold lt, SFltb. now rewrite E.
Qed.

Lemma float_le_trans x y z :
  le x y = true -> le y z = true -> le x z = true.
Proof.
  intros H1. unfold le at 1. unfold SFleb.
  destruct (SFcompare y z) as [[]|] eqn:E; try discriminate; intros _.
  - unfold le, SFleb in *.
    destruct (SFcompare x y) as [r|] eqn:E1; [|discriminate].
    pose proof (SFcompare_antisym _ _ _ E1) as E2.
    rewrite <- (SFcompare_Eq_l _ _ x E) in E2.
    apply SFcompare_antisym in E2. rewrite E2.
    destruct r; simpl in *; congruence.
  - apply float_lt_le, (float_le_lt_trans x y z); [exact H1|].
    unfold lt, SFltb. now rewrite E.
Qed.

End float_order_more.

Section confidence_more.
Import pyfloat ConfidenceScore.
Variable format_float : float -> str.

(** The constructor as a three-way normalization followed by the
    range check. *)
Lemma new_normalizes c :
  new format_float c =
    if le (neg EPSILON) c && lt c zero then Ok (mk zero)
    else if lt one c && le c (add one EPSILON) then Ok (mk one)
    else if le zero c && le c one then Ok (mk c)
    else Raise (InvalidConfidenceScoreError
                  (py "Confidence score must be between 0.0 and 1.0, got "
                     ++ format_float c)).
Proof.
  destruct (le (neg EPSILON) c && lt c zero) eqn:B1.
  - apply andb_true_iff in B1 as [H1 H2].
    unfold new, __post_init__. run_method. cbn [value].
    rewrite H1, H2. cbn [andb]. now rewrite (float_lt_ne _ _ H2).
  - destruct (lt one c && le c (add one EPSILON)) eqn:B2.
    + apply andb_true_iff in B2 as [H1 H2].
      unfold new, __post_init__. run_method. cbn [value].
      rewrite B1, H1, H2. cbn [andb]. now rewrite (float_lt_ne_l _ _ H1).
    + now apply new_unchanged.
Qed.

Lemma new_Ok_cases c s :
  new format_float c = Ok s ->
  (le (neg EPSILON) c = true /\ lt c zero = true /\ s = mk zero)
  \/ (lt one c = true /\ le c (add one EPSILON) = true /\ s = mk one)
  \/ (le zero c = true /\ le c one = true /\ s = mk c).
Proof.
  rewrite new_normalizes.
  destruct (le (neg EPSILON) c && lt c zero) eqn:B1.
  { apply andb_true_iff in B1 as [? ?]. intros E. injection E as <-. auto. }
  destruct (lt one c && le c (add one EPSILON)) eqn:B2.
  { apply andb_true_iff in B2 as [? ?]. intros E. injection E as <-. auto. }
  destruct (le zero c && le c one) eqn:B3; [|discriminate].
  apply andb_true_iff in B3 as [? ?]. intros E. injection E as <-. auto.
Qed.

Lemma new_of_unit_interval c :
  le zero c = true -> le c one = true -> new format_float c = Ok (mk c).
Proof.
  intros H1 H2. rewrite new_unchanged.
  - now rewrite H1, H2.
  - now rewrite (float_le_lt_false _ _ H1), andb_false_r.
  - now rewrite (float_le_lt_false _ _ H2).
Qed.

Lemma new_Raise_inv_conf c e :
  new format_float c = Raise e ->
  exists msg, e = InvalidConfidenceScoreError msg.
Proof.
  rewrite new_normalizes.
  repeat match goal with
    | |- context [if ?b then _ else _] => destruct b
    end; try discriminate.
  intros E. injection E as <-. eauto.
Qed.

(** X8. The value of every constructed score lies in [[0.0, 1.0]], so it
    is neither NaN nor infinite, and it is the argument itself, [0.0]
    or [1.0]; construction raises nothing but
    [InvalidConfidenceScoreError]. *)
Theorem ConfidenceScore_invariant c :
  (forall s, new format_float c = Ok s ->
     le zero (value s) = true /\ le (value s) one = true
     /\ is_nan (value s) = false
     /\ (forall sign, value s <> S754_infinity sign)
     /\ (value s = c \/ value s = zero \/ value s = one))
  /\ (forall e, new format_float c = Raise e ->
        exists msg, e = InvalidConfidenceScoreError msg).
Proof.
  split.
  - intros s H.
    assert (R : le zero (value s) = true /\ le (value s) one = true
                /\ (value s = c \/ value s = zero \/ value s = one)).
    { destruct (new_Ok_cases _ _ H) as [(_ & _ & ->)|[(_ & _ & ->)|(? & ? & ->)]];
        cbn [value]; repeat split; auto. }
    destruct R as (R1 & R2 & R3).
    split; [exact R1|]. split; [exact R2|].
    split; [apply (float_le_not_nan _ _ R1)|]. split; [|exact R3].
    intros sign E. rewrite E in R1, R2.
    destruct sign; [discriminate R1 | discriminate R2].
  - apply new_Raise_inv_conf.
Qed.

(** X9. Construction succeeds exactly for the arguments from [-EPSILON]
    to [1.0 + EPSILON]; NaN and the infinities are rejected. *)
Theorem ConfidenceScore_accepts_iff c :
  (exists s, new format_float c = Ok s)
  <-> le (neg EPSILON) c = true /\ le c (add one EPSILON) = true.
Proof.
  split.
  - intros [s H].
    destruct (new_Ok_cases _ _ H) as [(H1 & H2 & _)|[(H1 & H2 & _)|(H1 & H2 & _)]].
    + split; [exact H1|].
      apply float_lt_le, (float_lt_trans _ _ _ H2),
        (float_lt_trans _ _ _ zero_lt_one), one_lt_upper.
    + split; [|exact H2].
      apply float_lt_le, (float_lt_trans _ _ _ lower_lt_zero),
        (float_lt_trans _ _ _ zero_lt_one), H1.
    + split.
      * apply float_lt_le, (float_lt_le_trans _ _ _ lower_lt_zero H1).
      * apply float_lt_le, (float_le_lt_trans _ _ _ H2 one_lt_upper).
  - intros [H1 H2]. rewrite new_normalizes, H1. cbn [andb].
    destruct (float_le_not_nan _ _ H1) as [_ Nc].
    destruct (lt c zero) eqn:B1; [eauto|].
    rewrite H2, andb_true_r.
    destruct (lt one c) eqn:B2; [eauto|].
    rewrite (float_not_lt_le c zero), (float_not_lt_le one c); eauto.
Qed.

(** X10. Normalization is idempotent: the value of a constructed score
    constructs the same score again. *)
Theorem ConfidenceScore_idempotent c s :
  new format_float c = Ok s -> new format_float (value s) = Ok s.
Proof.
  intros H.
  destruct (new_Ok_cases _ _ H) as [(_ & _ & ->)|[(_ & _ & ->)|(H1 & H2 & ->)]];
    cbn [value]; apply new_of_unit_interval; auto; vm_compute; reflexivity.
Qed.

(** X11. Normalization keeps the order of scores: of two accepted
    arguments, the smaller one gets the smaller or an equal value. *)
Theorem ConfidenceScore_monotone c1 c2 s1 s2 :
  le c1 c2 = true ->
  new format_float c1 = Ok s1 -> new format_float c2 = Ok s2 ->
  le (value s1) (value s2) = true.
Proof.
  intros L H1 H2.
  destruct (new_Ok_cases _ _ H1) as [(A1 & A2 & ->)|[(A1 & A2 & ->)|(A1 & A2 & ->)]];
    destruct (new_Ok_cases _ _ H2) as [(B1 & B2 & ->)|[(B1 & B2 & ->)|(B1 & B2 & ->)]];
    cbn [value]; auto; try (vm_compute; reflexivity).
  - (* 1 < c1 <= c2 < 0 *)
    pose proof (float_lt_trans _ _ _ B2 zero_lt_one) as X.
    pose proof (float_lt_le_trans _ _ _ A1 L) as Y.
    now rewrite (float_lt_lt_false _ _ X) in Y.
  - (* 1 < c1 <= c2 <= 1 *)
    pose proof (float_lt_le_trans _ _ _ A1 L) as Y.
    now rewrite (float_le_lt_false _ _ B2) in Y.
  - (* 0 <= c1 <= c2 < 0 *)
    pose proof (float_le_trans _ _ _ A1 L) as Y.
    now rewrite (float_lt_le_false _ _ B2) in Y.
Qed.

(** X12. The three factories never raise, store their constants
    unchanged, and are strictly ordered: low < medium < high. *)
Theorem ConfidenceScore_factories :
  low format_float = Ok (mk (literal 3 10))
  /\ medium format_float = Ok (mk (literal 5 10))
  /\ high format_float = Ok (mk (literal 9 10))
  /\ lt (literal 3 10) (literal 5 10) = true
  /\ lt (literal 5 10) (literal 9 10) = true.
Proof.
  unfold low, medium, high.
  repeat split; try apply new_of_unit_interval; vm_compute; reflexivity.
Qed.

End confidence_more.

Lemma ConfidenceScore_invariant_witness :
  ConfidenceScore.new (fun _ => []) (pyfloat.literal 100001 100000)
    = Ok (ConfidenceScore.mk pyfloat.one)
  /\ pyfloat.le (ConfidenceScore.value (ConfidenceScore.mk pyfloat.one)) pyfloat.one
     = true.
Proof.
  assert (H : ConfidenceScore.new (fun _ => []) (pyfloat.literal 100001 100000)
              = Ok (ConfidenceScore.mk pyfloat.one)) by (vm_compute; reflexivity).
  split; [exact H|].
  apply (proj1 (ConfidenceScore_invariant (fun _ => []) _) _ H).
Defined.

Lemma ConfidenceScore_accepts_iff_witness :
  (pyfloat.le (pyfloat.neg ConfidenceScore.EPSILON) (S754_zero true) = true
   /\ pyfloat.le (S754_zero true)
        (pyfloat.add pyfloat.one ConfidenceScore.EPSILON) = true)
  /\ exists s, ConfidenceScore.new (fun _ => []) (S754_zero true) = Ok s.
Proof.
  split; [split; vm_compute; reflexivity|].
  apply (ConfidenceScore_accepts_iff (fun _ => [])).
  split; vm_compute; reflexivity.
Defined.

Lemma ConfidenceScore_idempotent_witness :
  let s := ConfidenceScore.mk pyfloat.zero in
  ConfidenceScore.new (fun _ => []) (pyfloat.neg ConfidenceScore.EPSILON) = Ok s
  /\ ConfidenceScore.new (fun _ => []) (ConfidenceScore.value s) = Ok s.
Proof.
  cbv zeta.
  assert (H : ConfidenceScore.new (fun _ => []) (pyfloat.neg ConfidenceScore.EPSILON)
              = Ok (ConfidenceScore.mk pyfloat.zero)) by (vm_compute; reflexivity).
  split; [exact H|].
  apply (ConfidenceScore_idempotent _ _ _ H).
Defined.

Lemma ConfidenceScore_monotone_witness :
  let c1 := pyfloat.neg ConfidenceScore.EPSILON in
  let c2 := pyfloat.literal 100001 100000 in
  (pyfloat.le c1 c2 = true
   /\ ConfidenceScore.new (fun _ => []) c1 = Ok (ConfidenceScore.mk pyfloat.zero)
   /\ ConfidenceScore.new (fun _ => []) c2 = Ok (ConfidenceScore.mk pyfloat.one))
  /\ pyfloat.le (ConfidenceScore.value (ConfidenceScore.mk pyfloat.zero))
       (ConfidenceScore.value (ConfidenceScore.mk pyfloat.one)) = true.
Proof.
  cbv zeta. split; [repeat split; vm_compute; reflexivity|].
  apply (ConfidenceScore_monotone (fun _ => [])
           (pyfloat.neg ConfidenceScore.EPSILON) (pyfloat.literal 100001 100000));
    vm_compute; reflexivity.
Defined.

(** ** More on [PatternLocation] *)

Section location_more.
Import PatternLocation LocationSpec.

Lemma new_Raise_inv_loc fp ls le cs ce e :
  formattable ls = true -> formattable le = true ->
  formattable cs = true -> formattable ce = true ->
  new fp ls le cs ce = Raise e -> exists msg, e = InvalidLocationError msg.
Proof.
  intros _ _ _ _. rewrite new_checks. unfold error_of.
  repeat match goal with
    | |- context [if ?b then _ else _] => destruct b
    end; try discriminate; intros E; injection E as <-; eauto.
Qed.

Lemma new_valid fp ls le cs ce :
  1 <= ls -> ls <= le -> 0 <= cs -> 0 <= ce -> (ls = le -> cs <= ce) ->
  Path.parts (as_path fp) <> [] ->
  new fp ls le cs ce = Ok (normalized fp ls le cs ce).
Proof.
  intros H1 H2 H3 H4 H5 Hp. rewrite new_checks.
  rewrite !(proj2 (Z.ltb_ge _ _)) by lia.
  destruct (Z.eqb_spec ls le) as [E|E]; cbn [andb].
  - rewrite (proj2 (Z.ltb_ge _ _)) by auto. now rewrite bool_decide_eq_false_2.
  - now rewrite bool_decide_eq_false_2.
Qed.

(** X13. Construction succeeds exactly when all the invariants hold, the
    stored path is then always a [Path], and a failure with line and
    column numbers that can be formatted is always an
    [InvalidLocationError]. *)
Theorem PatternLocation_new_iff fp ls le cs ce :
  ((exists loc, new fp ls le cs ce = Ok loc)
   <-> 1 <= ls /\ ls <= le /\ 0 <= cs /\ 0 <= ce /\ (ls = le -> cs <= ce)
       /\ Path.parts (as_path fp) <> [])
  /\ (forall loc, new fp ls le cs ce = Ok loc ->
        exists p, file_path loc = APath p /\ Path.parts p <> [])
  /\ (forall e,
        formattable ls = true -> formattable le = true ->
        formattable cs = true -> formattable ce = true ->
        new fp ls le cs ce = Raise e ->
        exists msg, e = InvalidLocationError msg).
Proof.
  split; [split|split].
  - intros [loc H]. apply new_Ok_inv in H. tauto.
  - intros (H1 & H2 & H3 & H4 & H5 & Hp). eauto using new_valid.
  - intros loc H. apply new_Ok_inv in H as (-> & H). cbn [normalized file_path].
    exists (as_path fp). tauto.
  - intros e. apply new_Raise_inv_loc.
Qed.

Lemma PatternLocation_new_iff_witness :
  let e := InvalidLocationError (py "Line start must be positive, got -1") in
  (formattable (-1) = true /\ formattable 10 = true
   /\ formattable 0 = true /\ formattable 0 = true
   /\ new (APath (Path.of_str (py "test.go"))) (-1) 10 0 0 = Raise e)
  /\ exists msg, e = InvalidLocationError msg.
Proof.
  cbv zeta.
  assert (F1 : formattable (-1) = true) by (vm_compute; reflexivity).
  assert (F2 : formattable 10 = true) by (vm_compute; reflexivity).
  assert (F3 : formattable 0 = true) by (vm_compute; reflexivity).
  assert (H : new (APath (Path.of_str (py "test.go"))) (-1) 10 0 0
              = Raise (InvalidLocationError
                         (py "Line start must be positive, got -1")))
    by (vm_compute; reflexivity).
  split; [auto|].
  apply (proj2 (proj2 (PatternLocation_new_iff _ (-1) 10 0 0)) _ F1 F2 F3 F3 H).
Defined.

(** X14. [at_line] succeeds exactly for a line number of at least 1 and a
    non-empty path; the location then covers that one line with the
    columns 0 to 0 and, for a line number that can be formatted, reads
    [path:n:0-0].  A line number below 1 that can be formatted is
    reported as a bad line start. *)
Theorem at_line_outcome fp n :
  (1 <= n -> Path.parts (as_path fp) <> [] ->
   at_line fp n = Ok (normalized fp n n 0 0))
  /\ (forall loc, at_line fp n = Ok loc ->
        1 <= n /\ Path.parts (as_path fp) <> []
        /\ loc = normalized fp n n 0 0
        /\ (formattable n = true ->
            __str__ loc
            = Path.__str__ (as_path fp) ++ py ":" ++ str_of_int n
                ++ py ":0-0"))
  /\ (n < 1 -> formattable n = true ->
      at_line fp n
      = Raise (InvalidLocationError
                 (py "Line start must be positive, got " ++ str_of_int n))).
Proof.
  unfold at_line. split; [|split].
  - intros. apply new_valid; auto; lia.
  - intros loc H. apply new_Ok_inv in H as (-> & H).
    repeat (split; [tauto || lia|]). intros _.
    unfold __str__, normalized.
    cbn [file_path line_start line_end column_start column_end format_path].
    now rewrite Z.eqb_refl.
  - intros H _. rewrite new_checks. now rewrite (proj2 (Z.ltb_lt _ _) H).
Qed.

Lemma at_line_outcome_witness :
  let fp := AStr (py "test.go") in
  let loc := normalized fp 42 42 0 0 in
  (at_line fp 42 = Ok loc /\ formattable 42 = true)
  /\ __str__ loc = py "test.go:42:0-0".
Proof.
  cbv zeta.
  assert (H : at_line (AStr (py "test.go")) 42
              = Ok (normalized (AStr (py "test.go")) 42 42 0 0))
    by (vm_compute; reflexivity).
  assert (F : formattable 42 = true) by (vm_compute; reflexivity).
  split; [auto|].
  destruct (proj1 (proj2 (at_line_outcome (AStr (py "test.go")) 42)) _ H)
    as (_ & _ & _ & W).
  rewrite (W F). vm_compute. reflexivity.
Defined.

(** X15. [single_point] succeeds exactly for a line of at least 1, a
    column of at least 0 and a non-empty path; the location then starts
    and ends at that point and, for numbers that can be formatted, reads
    [path:line:col-col].  Its failures then report the line start, the
    column start or the path, never a line end, a column end or an
    order. *)
Theorem single_point_outcome fp line column :
  (1 <= line -> 0 <= column -> Path.parts (as_path fp) <> [] ->
   single_point fp line column = Ok (normalized fp line line column column))
  /\ (forall loc, single_point fp line column = Ok loc ->
        1 <= line /\ 0 <= column /\ Path.parts (as_path fp) <> []
        /\ loc = normalized fp line line column column
        /\ (formattable line = true -> formattable column = true ->
            __str__ loc
            = Path.__str__ (as_path fp) ++ py ":" ++ str_of_int line
                ++ py ":" ++ str_of_int column ++ py "-" ++ str_of_int column))
  /\ (forall e,
        formattable line = true -> formattable column = true ->
        single_point fp line column = Raise e ->
        let l := normalized fp line line column column in
        e = error_of l LineStartPositive
        \/ e = error_of l ColumnStartNonNegative
        \/ e = error_of l PathNonEmpty).
Proof.
  unfold single_point. split; [|split].
  - intros. apply new_valid; auto; lia.
  - intros loc H. apply new_Ok_inv in H as (-> & H).
    repeat (split; [tauto || lia|]). intros _ _.
    unfold __str__, normalized.
    cbn [file_path line_start line_end column_start column_end format_path].
    now rewrite Z.eqb_refl.
  - intros e _ _. cbv zeta. rewrite new_checks.
    destruct (Z.ltb_spec line 1); [intros E; injection E as <-; auto|].
    rewrite Z.ltb_irrefl.
    destruct (Z.ltb_spec column 0); [intros E; injection E as <-; auto|].
    rewrite Z.ltb_irrefl, andb_false_r.
    case_bool_decide; [intros E; injection E as <-; auto | discriminate].
Qed.

Lemma single_point_outcome_witness :
  let fp := AStr (py "test.go") in
  let loc := normalized fp 42 42 8 8 in
  (single_point fp 42 8 = Ok loc
   /\ formattable 42 = true /\ formattable 8 = true)
  /\ __str__ loc = py "test.go:42:8-8".
Proof.
  cbv zeta.
  assert (H : single_point (AStr (py "test.go")) 42 8
              = Ok (normalized (AStr (py "test.go")) 42 42 8 8))
    by (vm_compute; reflexivity).
  assert (F1 : formattable 42 = true) by (vm_compute; reflexivity).
  assert (F2 : formattable 8 = true) by (vm_compute; reflexivity).
  split; [auto|].
  destruct (proj1 (proj2 (single_point_outcome (AStr (py "test.go")) 42 8)) _ H)
    as (_ & _ & _ & _ & W).
  rewrite (W F1 F2). vm_compute. reflexivity.
Defined.

(** X16. A path given as a string and the [Path] built from it give the
    same result, and constructing again from the fields of a constructed
    location returns it unchanged. *)
Theorem PatternLocation_path_conversion (s : str) (ls le cs ce : Z) :
  new (AStr s) ls le cs ce = new (APath (Path.of_str s)) ls le cs ce
  /\ (forall fp loc, new fp ls le cs ce = Ok loc ->
        new (file_path loc) (line_start loc) (line_end loc)
            (column_start loc) (column_end loc) = Ok loc).
Proof.
  split.
  - now rewrite !new_checks.
  - intros fp loc H. apply new_Ok_inv in H as (-> & H).
    cbn [normalized file_path line_start line_end column_start column_end].
    rewrite new_valid by (cbn [as_path]; tauto || lia). reflexivity.
Qed.

Lemma PatternLocation_path_conversion_witness :
  let loc := normalized (AStr (py "a//b.go")) 3 4 9 1 in
  new (AStr (py "a//b.go")) 3 4 9 1 = Ok loc
  /\ new (file_path loc) (line_start loc) (line_end loc)
         (column_start loc) (column_end loc) = Ok loc.
Proof.
  cbv zeta.
  assert (H : new (AStr (py "a//b.go")) 3 4 9 1
              = Ok (normalized (AStr (py "a//b.go")) 3 4 9 1))
    by (vm_compute; reflexivity).
  split; [exact H|].
  apply (proj2 (PatternLocation_path_conversion (py "") 3 4 9 1) _ _ H).
Defined.

End location_more.

(** ** Entities, exception classes and enumerations *)

Section entity_more.

(** X17. [validate] on a pattern raises only for a keeper without store
    keys, and then an [ExtractionError]; every handler and every keeper
    with a store key validates and is left as it is. *)
Theorem Pattern_validate_outcome :
  (forall h, Pattern_validate (Handler h) = Ok (tt, Handler h))
  /\ (forall k, KeeperPattern.store_keys k <> [] ->
        Pattern_validate (Keeper k) = Ok (tt, Keeper k))
  /\ (forall p e, Pattern_validate p = Raise e ->
        exists k msg, p = Keeper k /\ KeeperPattern.store_keys k = []
                      /\ e = ExtractionError msg).
Proof.
  split; [reflexivity|]. split.
  - intros k H. unfold Pattern_validate, KeeperPattern.validate. run_method.
    now rewrite bool_decide_eq_false_2.
  - intros [k|h] e; [|discriminate].
    unfold Pattern_validate, KeeperPattern.validate. run_method.
    case_bool_decide as E; [|discriminate].
    intros X. injection X as <-. eauto.
Qed.

Lemma Pattern_validate_outcome_witness :
  let k :=
    KeeperPattern.mk
      (LocationSpec.normalized (PatternLocation.AStr (py "keeper.go")) 142 142 0 0)
      (ConfidenceScore.mk (pyfloat.literal 95 100))
      MESSAGE_HANDLER ETHEREUM
      (QualifiedName.mk (py "cosmos.bank.keeper") (py "Keeper"))
      [py "bank"] [] in
  KeeperPattern.store_keys k <> []
  /\ Pattern_validate (Keeper k) = Ok (tt, Keeper k).
Proof.
  cbv zeta. split; [discriminate|].
  apply (proj1 (proj2 Pattern_validate_outcome)). discriminate.
Defined.

(** X18. Whether a relation can be constructed depends only on the
    identities of its two ends: not on the direction, the relation type,
    the metadata or the values.  So both directions between two
    patterns are accepted together. *)
Theorem PatternRelation_acceptance_symmetric
    (s t s' t' : instance Pattern) (rt rt' : RelationType)
    (md md' : gmap str json) :
  ((exists r, PatternRelation.new s t rt md = Ok r)
   <-> (exists r, PatternRelation.new t s rt' md' = Ok r))
  /\ (oid s = oid s' -> oid t = oid t' ->
      ((exists r, PatternRelation.new s t rt md = Ok r)
       <-> (exists r, PatternRelation.new s' t' rt' md' = Ok r)))
  /\ (forall r, PatternRelation.new s t rt md = Ok r ->
        r = PatternRelation.mk s t rt md).
Proof.
  unfold PatternRelation.new, PatternRelation.__post_init__, is_.
  run_method. cbn [PatternRelation.source PatternRelation.target].
  split; [|split].
  - repeat case_bool_decide; split; intros [r X];
      try discriminate X; eauto; congruence.
  - intros E1 E2. rewrite <- E1, <- E2.
    repeat case_bool_decide; split; intros [r X];
      try discriminate X; eauto.
  - intros r. case_bool_decide; [discriminate|].
    intros X. now injection X as <-.
Qed.

Lemma PatternRelation_acceptance_symmetric_witness :
  let p :=
    Handler (HandlerPattern.mk
               (LocationSpec.normalized (PatternLocation.AStr (py "h.go")) 25 25 0 0)
               (ConfidenceScore.mk (pyfloat.literal 85 100))
               MESSAGE_HANDLER COSMOS_SDK
               (QualifiedName.mk (py "cosmos.bank.handler") (py "SendHandler"))
               HandlerPattern.message_kind
               (QualifiedName.mk (py "cosmos.bank.types") (py "MsgSend")) []) in
  let a := mk_instance 1%N p in
  let b := mk_instance 2%N p in
  (exists r, PatternRelation.new a b CALLS ∅ = Ok r)
  /\ (exists r, PatternRelation.new b a DEPENDS_ON ∅ = Ok r).
Proof.
  cbv zeta.
  match goal with
  | |- (exists r, PatternRelation.new ?a ?b _ _ = _) /\ _ =>
      assert (H : exists r, PatternRelation.new a b CALLS ∅ = Ok r)
        by (eexists; vm_compute; reflexivity);
      split; [exact H|];
      exact (proj1 (proj1 (PatternRelation_acceptance_symmetric
                             a b a b CALLS DEPENDS_ON ∅ ∅)) H)
  end.
Defined.

End entity_more.

Section exception_classes.
Import exceptions.

(** X19. Every class of [exceptions.py] derives from [CodewatchError], and
    nothing else does; among them the [ValueError]s are exactly
    [ValueObjectError] and its three subclasses; subclassing is
    reflexive, transitive and antisymmetric, and no chain of base
    classes is longer than the four steps [issubclass] follows. *)
Theorem exception_hierarchy :
  (forall c, issubclass c CodewatchError = defined_here c)
  /\ (forall c, defined_here c = true ->
        issubclass c ValueError = issubclass c ValueObjectError)
  /\ (forall c, issubclass c ValueObjectError = true <->
        c = ValueObjectError \/ c = InvalidLocationError
        \/ c = InvalidConfidenceScoreError \/ c = InvalidQualifiedNameError)
  /\ (forall c, issubclass c c = true)
  /\ (forall c d e, issubclass c d = true -> issubclass d e = true ->
        issubclass c e = true)
  /\ (forall c d, issubclass c d = true -> issubclass d c = true -> c = d)
  /\ (forall n c d, derives (4 + n) c d = issubclass c d).
Proof.
  repeat split.
  - intros []; reflexivity.
  - intros []; intros H; try discriminate H; reflexivity.
  - destruct c; vm_compute; intros H; try discriminate H; tauto.
  - intros [H|[H|[H|H]]]; subst; reflexivity.
  - intros []; reflexivity.
  - intros [] [] []; vm_compute; congruence.
  - intros [] []; vm_compute; congruence.
  - induction n as [|n IH]; intros c d.
    + reflexivity.
    + change (derives (4 + S n) c d)
        with (bool_decide (c = d)
              || existsb (fun b => derives (4 + n) b d) (bases c)).
      destruct c; cbn [bases existsb]; rewrite ?IH; destruct d; reflexivity.
Qed.

Lemma exception_hierarchy_witness :
  defined_here InvalidLocationError = true
  /\ issubclass InvalidLocationError ValueError
     = issubclass InvalidLocationError ValueObjectError.
Proof.
  split; [reflexivity|].
  apply (proj1 (proj2 exception_hierarchy)). reflexivity.
Defined.

End exception_classes.

Section enum_members.

(** X20. In each enumeration the members have pairwise distinct values
    and string forms, so none is an alias of another, and iterating
    over the enumeration yields every member exactly once. *)
Theorem enum_members_distinct :
  (forall f g, Framework_str f = Framework_str g -> f = g)
  /\ (forall p q, PatternType_str p = PatternType_str q -> p = q)
  /\ (forall r s, RelationType_str r = RelationType_str s -> r = s)
  /\ (List.NoDup Framework_members /\ forall f, In f Framework_members)
  /\ (List.NoDup PatternType_members /\ forall p, In p PatternType_members)
  /\ (List.NoDup RelationType_members /\ forall r, In r RelationType_members).
Proof.
  split; [|split; [|split; [|split; [|split]]]].
  - intros [] [] E; try reflexivity; vm_compute in E; discriminate E.
  - intros [] [] E; try reflexivity; vm_compute in E; discriminate E.
  - intros [] [] E; try reflexivity; vm_compute in E; discriminate E.
  - split; [|intros []; simpl; tauto].
    repeat (constructor; [simpl; intuition discriminate|]); constructor.
  - split; [|intros []; simpl; tauto].
    repeat (constructor; [simpl; intuition discriminate|]); constructor.
  - split; [|intros []; simpl; tauto].
    repeat (constructor; [simpl; intuition discriminate|]); constructor.
Qed.

Lemma enum_members_distinct_witness :
  Framework_str ETHEREUM = Framework_str ETHEREUM /\ ETHEREUM = ETHEREUM.
Proof.
  split; [reflexivity|].
  apply (proj1 enum_members_distinct). reflexivity.
Defined.

End enum_members.

(** ** Which handlers catch the errors the code raises *)

Section raised_errors.

(** X21. What the value-object constructors and [parse] raise (for a
    location, with line and column numbers that can be formatted) is
    caught both by [except ValueError] and by [except CodewatchError]; what
    [validate] and the relation constructor raise is caught by
    [except CodewatchError] but not by [except ValueError]; the error
    of hashing a relation is not a [CodewatchError] at all. *)
Theorem raised_errors_catchable :
  (forall p n e, QualifiedName.new p n = Raise e ->
     isinstance e exceptions.ValueError = true
     /\ isinstance e exceptions.CodewatchError = true)
  /\ (forall s e, QualifiedName.parse s = Raise e ->
        isinstance e exceptions.ValueError = true
        /\ isinstance e exceptions.CodewatchError = true)
  /\ (forall format_float c e, ConfidenceScore.new format_float c = Raise e ->
        isinstance e exceptions.ValueError = true
        /\ isinstance e exceptions.CodewatchError = true)
  /\ (forall fp ls le cs ce e,
        formattable ls = true -> formattable le = true ->
        formattable cs = true -> formattable ce = true ->
        PatternLocation.new fp ls le cs ce = Raise e ->
        isinstance e exceptions.ValueError = true
        /\ isinstance e exceptions.CodewatchError = true)
  /\ (forall p e, Pattern_validate p = Raise e ->
        isinstance e exceptions.CodewatchError = true
        /\ isinstance e exceptions.ValueError = false)
  /\ (forall s t rt md e, PatternRelation.new s t rt md = Raise e ->
        isinstance e exceptions.CodewatchError = true
        /\ isinstance e exceptions.ValueError = false)
  /\ (forall hash_str hash_int hash_float hash_path combine r e,
        pyhash.hash_PatternRelation
          hash_str hash_int hash_float hash_path combine r = Raise e ->
        isinstance e exceptions.CodewatchError = false).
Proof.
  repeat apply conj.
  - intros p n e H. apply new_Raise_inv in H as [msg ->]. split; reflexivity.
  - intros s e H. apply parse_Raise_inv in H as [msg ->]. split; reflexivity.
  - intros ff c e H. apply new_Raise_inv_conf in H as [msg ->].
    split; reflexivity.
  - intros fp ls le cs ce e F1 F2 F3 F4 H.
    destruct (new_Raise_inv_loc _ _ _ _ _ _ F1 F2 F3 F4 H) as [msg ->].
    split; reflexivity.
  - intros [k|h] e; [|discriminate].
    unfold Pattern_validate, KeeperPattern.validate. run_method.
    case_bool_decide; [|discriminate].
    intros X. injection X as <-. split; reflexivity.
  - intros s t rt md e.
    unfold PatternRelation.new, PatternRelation.__post_init__. run_method.
    destruct (is_ _ _); [|discriminate].
    intros X. injection X as <-. split; reflexivity.
  - intros hs hi hf hp cb r e.
    unfold pyhash.hash_PatternRelation, pyhash.hash_tuple.
    destruct (hash_Pattern_Ok hs hi hf hp cb (val (PatternRelation.source r)))
      as [zs ->].
    destruct (hash_Pattern_Ok hs hi hf hp cb (val (PatternRelation.target r)))
      as [zt ->].
    intros X. injection X as <-. reflexivity.
Qed.

Lemma raised_errors_catchable_witness :
  let e := InvalidLocationError (py "Line end (10) must be >= line start (20)") in
  (formattable 20 = true /\ formattable 10 = true /\ formattable 0 = true
   /\ PatternLocation.new (PatternLocation.AStr (py "test.go")) 20 10 0 0
      = Raise e)
  /\ isinstance e exceptions.ValueError = true
  /\ isinstance e exceptions.CodewatchError = true.
Proof.
  cbv zeta.
  assert (F1 : formattable 20 = true) by (vm_compute; reflexivity).
  assert (F2 : formattable 10 = true) by (vm_compute; reflexivity).
  assert (F3 : formattable 0 = true) by (vm_compute; reflexivity).
  assert (H : PatternLocation.new (PatternLocation.AStr (py "test.go")) 20 10 0 0
              = Raise (InvalidLocationError
                         (py "Line end (10) must be >= line start (20)")))
    by (vm_compute; reflexivity).
  split; [auto|].
  apply (proj1 (proj2 (proj2 (proj2 raised_errors_catchable)))
           _ _ _ _ _ _ F1 F2 F3 F3 H).
Defined.

End raised_errors.

(** ** String forms and error messages *)

Section string_forms.
Implicit Types (s p n : str) (c : char).

Lemma contains_char_mid c p n : contains_char c (p ++ c :: n) = true.
Proof.
  rewrite contains_char_app. simpl. rewrite N.eqb_refl. apply orb_true_r.
Qed.

(** The split of a string at its last [c] is unique. *)
Lemma split_at_last_unique c p1 n1 p2 n2 :
  contains_char c n1 = false -> contains_char c n2 = false ->
  p1 ++ c :: n1 = p2 ++ c :: n2 -> p1 = p2 /\ n1 = n2.
Proof.
  intros H1 H2. revert p2.
  induction p1 as [|x p1 IH]; intros [|y p2] E; simpl in E.
  - injection E as ->. auto.
  - injection E as <- ->. now rewrite contains_char_mid in H1.
  - injection E as -> <-. now rewrite contains_char_mid in H2.
  - injection E as -> E. destruct (IH _ E) as [-> ->]. auto.
Qed.

Lemma contains_inside hay a n b : hay = a ++ n ++ b -> contains hay n = true.
Proof. intros ->. apply contains_app. Qed.

(** X22. Qualified names whose names contain no dot (all parsed ones)
    are told apart by their string forms. *)
Theorem QualifiedName_str_injective (q1 q2 : QualifiedName.t) :
  contains_char dot (QualifiedName.name q1) = false ->
  contains_char dot (QualifiedName.name q2) = false ->
  QualifiedName.__str__ q1 = QualifiedName.__str__ q2 -> q1 = q2.
Proof.
  destruct q1 as [p1 n1], q2 as [p2 n2]. unfold QualifiedName.__str__.
  cbn [QualifiedName.package QualifiedName.name]. intros H1 H2 E.
  change (py "." ++ n1) with (dot :: n1) in E.
  change (py "." ++ n2) with (dot :: n2) in E.
  destruct (split_at_last_unique _ _ _ _ _ H1 H2 E) as [-> ->]. reflexivity.
Qed.

Lemma QualifiedName_str_injective_witness :
  let q := QualifiedName.mk (py "a.b") (py "c") in
  contains_char dot (QualifiedName.name q) = false /\ q = q.
Proof.
  cbv zeta. split; [reflexivity|].
  apply QualifiedName_str_injective; reflexivity.
Defined.

End string_forms.

Section error_messages.
Import PatternLocation.

(** X23. The error messages name the offender: the keeper's qualified
    name, the trimmed input without a dot, and the numbers that break
    a line or column check, when these numbers can be formatted. *)
Theorem error_messages_quote_offender :
  (forall k, KeeperPattern.store_keys k = [] ->
     exists msg, KeeperPattern.validate k = Raise (ExtractionError msg)
       /\ contains msg (QualifiedName.__str__ (KeeperPattern.keeper_name k)) = true)
  /\ (forall s, strip s <> [] -> contains_char dot s = false ->
        exists msg, QualifiedName.parse s = Raise (InvalidQualifiedNameError msg)
          /\ contains msg (strip s) = true)
  /\ (forall fp ls le cs ce, ls < 1 -> formattable ls = true ->
        exists msg, new fp ls le cs ce = Raise (InvalidLocationError msg)
          /\ contains msg (str_of_int ls) = true)
  /\ (forall fp ls le cs ce, 1 <= ls -> le < ls ->
        formattable ls = true -> formattable le = true ->
        exists msg, new fp ls le cs ce = Raise (InvalidLocationError msg)
          /\ contains msg (str_of_int le) = true)
  /\ (forall fp ls le cs ce, 1 <= ls -> ls <= le -> cs < 0 ->
        formattable cs = true ->
        exists msg, new fp ls le cs ce = Raise (InvalidLocationError msg)
          /\ contains msg (str_of_int cs) = true)
  /\ (forall fp ls le cs ce, 1 <= ls -> ls <= le -> 0 <= cs -> ce < cs ->
        (ce < 0 \/ ls = le) ->
        formattable cs = true -> formattable ce = true ->
        exists msg, new fp ls le cs ce = Raise (InvalidLocationError msg)
          /\ contains msg (str_of_int ce) = true).
Proof.
  repeat apply conj.
  - intros k H. unfold KeeperPattern.validate. run_method.
    rewrite bool_decide_eq_true_2 by exact H.
    eexists. split; [reflexivity|]. now eapply contains_inside.
  - intros s H D. unfold QualifiedName.parse.
    rewrite bool_decide_eq_false_2 by exact H.
    rewrite contains_char_strip, D by reflexivity. cbn [negb].
    eexists. split; [reflexivity|]. now eapply contains_inside.
  - intros fp ls le cs ce H _. rewrite new_checks.
    rewrite (proj2 (Z.ltb_lt _ _) H). unfold LocationSpec.error_of.
    cbn [LocationSpec.normalized line_start].
    eexists. split; [reflexivity|].
    eapply (contains_inside _ _ _ []). now rewrite app_nil_r.
  - intros fp ls le cs ce H1 H2 _ _. rewrite new_checks.
    rewrite (proj2 (Z.ltb_ge _ _) H1). unfold LocationSpec.error_of.
    cbn [LocationSpec.normalized line_start line_end].
    destruct (Z.ltb_spec le 1).
    + eexists. split; [reflexivity|].
      eapply (contains_inside _ _ _ []). now rewrite app_nil_r.
    + rewrite (proj2 (Z.ltb_lt _ _) H2).
      eexists. split; [reflexivity|]. now eapply contains_inside.
  - intros fp ls le cs ce H1 H2 H3 _. rewrite new_checks.
    rewrite !(proj2 (Z.ltb_ge _ _)) by lia.
    rewrite (proj2 (Z.ltb_lt _ _) H3). unfold LocationSpec.error_of.
    cbn [LocationSpec.normalized column_start].
    eexists. split; [reflexivity|].
    eapply (contains_inside _ _ _ []). now rewrite app_nil_r.
  - intros fp ls le cs ce H1 H2 H3 H4 H5 _ _. rewrite new_checks.
    rewrite !(proj2 (Z.ltb_ge _ _)) by lia. unfold LocationSpec.error_of.
    cbn [LocationSpec.normalized column_start column_end].
    destruct (Z.ltb_spec ce 0).
    + eexists. split; [reflexivity|].
      eapply (contains_inside _ _ _ []). now rewrite app_nil_r.
    + destruct H5 as [H5| ->]; [lia|].
      rewrite Z.eqb_refl, (proj2 (Z.ltb_lt _ _) H4). cbn [andb].
      eexists. split; [reflexivity|]. now eapply contains_inside.
Qed.

Lemma error_messages_quote_offender_witness :
  (1 <= 20 /\ 10 < 20 /\ formattable 20 = true /\ formattable 10 = true)
  /\ exists msg,
       new (AStr (py "test.go")) 20 10 0 0 = Raise (InvalidLocationError msg)
       /\ contains msg (str_of_int 10) = true.
Proof.
  split; [repeat split; try lia; vm_compute; reflexivity|].
  apply (proj1 (proj2 (proj2 (proj2 error_messages_quote_offender))));
    try lia; vm_compute; reflexivity.
Defined.

End error_messages.

(** ** Cases from the repository's tests *)

Example test_parse_handles_whitespace :
  QualifiedName.parse (py "  main.App  ")
  = Ok (QualifiedName.mk (py "main") (py "App")).
Proof. vm_compute. reflexivity. Qed.

Example test_parse_rejects_no_separator :
  QualifiedName.parse (py "NoPackage")
  = Raise (InvalidQualifiedNameError
             (py "Qualified name must contain at least one '.' separator, got 'NoPackage'")).
Proof. vm_compute. reflexivity. Qed.

Example test_normalize_slightly_below_zero :
  ConfidenceScore.new (fun _ => []) (pyfloat.neg (pyfloat.literal 1 100000))
  = Ok (ConfidenceScore.mk pyfloat.zero).
Proof. vm_compute. reflexivity. Qed.

Example test_no_normalize_clearly_invalid_positive :
  ConfidenceScore.new (fun _ => py "1.001") (pyfloat.literal 1001 1000)
  = Raise (InvalidConfidenceScoreError
             (py "Confidence score must be between 0.0 and 1.0, got 1.001")).
Proof. vm_compute. reflexivity. Qed.

Example test_reject_empty_file_path :
  PatternLocation.new (PatternLocation.APath (Path.of_str (py ""))) 1 1 0 0
  = Raise (InvalidLocationError (py "File path cannot be empty")).
Proof. vm_compute. reflexivity. Qed.

Example test_reject_line_end_before_start :
  PatternLocation.new (PatternLocation.APath (Path.of_str (py "test.go"))) 20 10 0 0
  = Raise (InvalidLocationError (py "Line end (10) must be >= line start (20)")).
Proof. vm_compute. reflexivity. Qed.

(** Several violated invariants: the line start is reported, although
    the line end, both columns and the path are invalid as well. *)
Example several_violations_first_reported :
  PatternLocation.new (PatternLocation.AStr (py ".")) 0 (-3) (-1) (-2)
  = Raise (InvalidLocationError (py "Line start must be positive, got 0")).
Proof. vm_compute. reflexivity. Qed.

Example test_single_point_factory :
  PatternLocation.single_point (PatternLocation.AStr (py "test.go")) 42 8
  = Ok (LocationSpec.normalized (PatternLocation.AStr (py "test.go")) 42 42 8 8).
Proof. vm_compute. reflexivity. Qed.
